(** * Verification of scripts/performance_monitor.py (rusty-audio)

    A shallow embedding of the [PerformanceMonitor] class and of [main].

    Modelling choices.
    - Python floats ([cpu_percent], [memory_mb], averages) are exact
      rationals [Q]; Python ints ([thread_count], pids) are [Z].
      Rounding is therefore not modelled; comparisons are exact.
    - A [deque(maxlen=n)] is the list of its items, oldest first, together
      with its [maxlen].
    - [print], [json.dump] to a file, [time.sleep] and the chart text are
      events appended to an output trace.  An f-string is represented by a
      constructor of [Line] that carries the values it interpolates.
    - What [psutil], the clock and the keyboard deliver is supplied from
      outside, as a [Probe] per call of [collect_metrics] and a [Tick] per
      iteration of the loop of [main].  A [KeyboardInterrupt] is delivered
      at the two places where the program waits: [cpu_percent(interval=0.1)]
      and [time.sleep].
    - psutil sets the attribute [info] of a process in [process_iter]
      only; the handle of [psutil.Process(pid)] has none.
    - Python exceptions are values of [Exc]; a computation is a function
      from the world (monitor object and trace) to an outcome and a new
      world.  The outcome [None] means that the supplied script of ticks ran
      out while the program was still looping. *)

From Stdlib Require Import String Ascii.
From Stdlib Require Import List ZArith QArith Qminmax Bool Lia Arith.
Import ListNotations.

Open Scope Z_scope.
Open Scope Q_scope.

(** ** Python values and built-ins *)

Module Py.

(** Exceptions that the modelled code can raise. *)
Inductive PsErr : Type :=
| NoSuchProcess
| AccessDenied.

Inductive Exc : Type :=
| Psutil (e : PsErr)
| KeyboardInterrupt
| SystemExit (code : Z)
| ZeroDivisionError
| ValueError
| AttributeError
| TypeError
| OSError.

Inductive Res (A : Type) : Type :=
| Ok (a : A)
| Raise (e : Exc).
Arguments Ok {A} a.
Arguments Raise {A} e.

(** [a > b] on floats and on ints. *)
Definition Qgtb (a b : Q) : bool := negb (Qle_bool a b).
Definition Zgtb (a b : Z) : bool := Z.gtb a b.

(** [sum(xs)]: starts from 0 and adds from the left.  The sum is exact
    here and rounded in Python: the theorems below use no law of
    arithmetic on sums and quotients, only that both sides are the same
    computation. *)
Definition sum (xs : list Q) : Q := fold_left Qplus xs 0.

(** [sum(xs)] for a list of ints. *)
Definition sumZ (xs : list Z) : Z := fold_left Z.add xs 0%Z.

(** [a / n] where [n] is an int: true division, raising on zero. *)
Definition truediv (a : Q) (n : Z) : Res Q :=
  if Z.eqb n 0 then Raise ZeroDivisionError else Ok (a / inject_Z n).

(** [max(xs)]: raises [ValueError] on the empty list; among equal maxima
    the first one is returned. *)
Definition max_from {A} (gt : A -> A -> bool) (x : A) (xs : list A) : A :=
  fold_left (fun best y => if gt y best then y else best) xs x.

Definition max {A} (gt : A -> A -> bool) (xs : list A) : Res A :=
  match xs with
  | [] => Raise ValueError
  | x :: rest => Ok (max_from gt x rest)
  end.

(** [xs[-n:]] for [n > 0]: the last [n] items, all of them when there are
    fewer. *)
Definition last_n {A} (n : nat) (xs : list A) : list A :=
  skipn (length xs - n) xs.

(** [sum(1 for x in xs if p x)]. *)
Definition count_if {A} (p : A -> bool) (xs : list A) : Z :=
  fold_left (fun acc x => if p x then (acc + 1)%Z else acc) xs 0%Z.

(** [len(xs)] as a Python int. *)
Definition len {A} (xs : list A) : Z := Z.of_nat (length xs).

(** *** collections.deque with a maxlen *)
Record deque (A : Type) : Type := mkDeque {
  items : list A;
  maxlen : nat
}.
Arguments mkDeque {A} items maxlen.
Arguments items {A} d.
Arguments maxlen {A} d.

(** [deque(maxlen=n)]. *)
Definition deque_new {A} (n : nat) : deque A := mkDeque [] n.

(** [d.append(x)]: the item is added on the right and, when the deque is
    then longer than [maxlen], one item is dropped on the left. *)
Definition append {A} (d : deque A) (x : A) : deque A :=
  let grown := items d ++ [x] in
  if Nat.ltb (maxlen d) (length grown)
  then mkDeque (tl grown) (maxlen d)
  else mkDeque grown (maxlen d).

(** [list(d)], [len(d)] and the truth value of [d]. *)
Definition to_list {A} (d : deque A) : list A := items d.
Definition dlen {A} (d : deque A) : Z := len (items d).
Definition truthy {A} (d : deque A) : bool :=
  match items d with [] => false | _ :: _ => true end.

End Py.
Import Py.

(** ** The monitor object and what the program emits *)

(** [self.thresholds]: a dict with four fixed keys. *)
Record Thresholds : Type := mkThresholds {
  th_cpu_percent : Q;
  th_memory_mb : Q;
  th_audio_latency_ms : Q;
  th_thread_count : Z
}.

(** The fields of a [PerformanceMonitor].  [process] is the handle
    [psutil.Process], represented by the pid it was opened on. *)
Record Monitor : Type := mkMonitor {
  pid : option Z;
  process : option Z;
  history_size : nat;
  cpu_history : deque Q;
  memory_history : deque Q;
  thread_count_history : deque Z;
  handle_count_history : deque Z;
  time_history : deque Q;
  audio_latency_history : deque Q;
  xrun_count : Z;
  frame_drops : Z;
  thresholds : Thresholds
}.

(** The dict built by [collect_metrics]. *)
Record Metrics : Type := mkMetrics {
  timestamp : string;
  cpu_percent : Q;
  memory_mb : Q;
  memory_percent : Q;
  thread_count : Z;
  handle_count : Z;
  read_bytes : Z;
  write_bytes : Z
}.

(** One entry of ['metrics'] in the saved data. *)
Record Stats (A : Type) : Type := mkStats {
  history : list A;
  average : Q;
  peak : A
}.
Arguments mkStats {A} history average peak.
Arguments history {A} s.
Arguments average {A} s.
Arguments peak {A} s.

(** The dict returned by [_get_threshold_violations]. *)
Record Violations : Type := mkViolations {
  cpu_exceeded : Z;
  memory_exceeded : Z;
  thread_exceeded : Z
}.

(** The dict [data] written by [save_metrics]. *)
Record Snapshot : Type := mkSnapshot {
  process_id : option Z;
  process_name : string;
  monitoring_duration : Z;
  metrics_cpu : Stats Q;
  metrics_memory : Stats Q;
  metrics_threads : Stats Z;
  snap_thresholds : Thresholds;
  snap_violations : Violations
}.

(** The text panel of the live chart: current values and the two
    averages. *)
Record Panel : Type := mkPanel {
  panel_cpu : Q;
  panel_memory : Q;
  panel_threads : Z;
  panel_handles : Z;
  panel_avg_cpu : Q;
  panel_avg_memory : Q
}.

(** Every [print] of the program, with the values it interpolates. *)
Inductive Line : Type :=
| WarnNotRusty (p : Z)
| ErrNoProcessWithPid (p : Z)
| FoundProcess (p : Z)
| ErrCouldNotFind
| HintStartOrPid
| ErrCollecting (e : PsErr)
| HighCpu (observed limit : Q)
| HighMemory (observed limit : Q)
| HighThreadCount (observed limit : Z)
| Stamp (ts : string)
| Current (cpu mem mem_pct : Q) (threads handles : Z)
| Average10 (avg_cpu avg_memory : Q)
| SavedTo (filename : string)
| PlotNeedsMatplotlib
| StoppedByUser
| SummaryHeader
| CpuAverage (v : Q)
| CpuPeak (v : Q)
| MemoryAverage (v : Q)
| MemoryPeak (v : Q)
| ViolationsHeader
| CpuTimes (limit : Q) (n : Z)
| MemoryTimes (limit : Q) (n : Z)
| ThreadsTimes (limit : Z) (n : Z)
| BenchStarting
| BenchResults
| BenchStdout (s : string).

Inductive Event : Type :=
| Printed (l : Line)
| Dumped (filename : string) (data : Snapshot)
| Slept (seconds : Q)
| Drawn (p : Panel)
| Terminated (p : Z).

Record World : Type := mkWorld {
  mon : Monitor;
  out : list Event
}.

(** ** Computations *)

Definition M (A : Type) : Type := World -> option (Res A * World).

Definition ret {A} (a : A) : M A := fun w => Some (Ok a, w).

Definition bind {A B} (c : M A) (k : A -> M B) : M B :=
  fun w =>
    match c w with
    | None => None
    | Some (Ok a, w1) => k a w1
    | Some (Raise e, w1) => Some (Raise e, w1)
    end.

Declare Scope py_scope.
Delimit Scope py_scope with py.
Notation "x <- c ;; k" := (bind c (fun x => k))
  (at level 61, c at next level, right associativity) : py_scope.
Notation "c ;;; k" := (bind c (fun _ => k))
  (at level 61, right associativity) : py_scope.
Open Scope py_scope.

Definition raise {A} (e : Exc) : M A := fun w => Some (Raise e, w).

(** Lifting the outcome of a built-in. *)
Definition lift {A} (r : Res A) : M A := fun w => Some (r, w).

Definition get_self : M Monitor := fun w => Some (Ok (mon w), w).

Definition set_self (f : Monitor -> Monitor) : M unit :=
  fun w => Some (Ok tt, mkWorld (f (mon w)) (out w)).

Definition emit (e : Event) : M unit :=
  fun w => Some (Ok tt, mkWorld (mon w) (out w ++ [e])).

Definition print (l : Line) : M unit := emit (Printed l).

(** The loop ran out of supplied ticks: no outcome. *)
Definition still_running {A} : M A := fun _ => None.

(** [for x in xs: body x]. *)
Fixpoint for_each {A} (xs : list A) (body : A -> M unit) : M unit :=
  match xs with
  | [] => ret tt
  | x :: rest => body x ;;; for_each rest body
  end.

(** [try: body / except KeyboardInterrupt: handler]. *)
Definition try_except_KeyboardInterrupt (body handler : M unit) : M unit :=
  fun w =>
    match body w with
    | Some (Raise KeyboardInterrupt, w1) => handler w1
    | other => other
    end.

(** [try: body / except (psutil.NoSuchProcess, psutil.AccessDenied) as e:
    handler e]. *)
Definition try_except_psutil {A} (body : M A) (handler : PsErr -> M A) : M A :=
  fun w =>
    match body w with
    | Some (Raise (Psutil e), w1) => handler e w1
    | other => other
    end.

(** [try: body / finally: final].  [final] runs on every outcome of
    [body]; when [final] raises, its exception replaces that outcome. *)
Definition try_finally {A} (body : M A) (final : M unit) : M A :=
  fun w =>
    match body w with
    | None => None
    | Some (r, w1) =>
        match final w1 with
        | None => None
        | Some (Ok _, w2) => Some (r, w2)
        | Some (Raise e, w2) => Some (Raise e, w2)
        end
    end.

(** ** What the environment supplies *)

(** The outcome of a [psutil] call that may raise, or be interrupted from
    the keyboard while it waits. *)
Inductive Read (A : Type) : Type :=
| Got (a : A)
| Failed (e : PsErr)
| Interrupted.
Arguments Got {A} a.
Arguments Failed {A} e.
Arguments Interrupted {A}.

Definition read {A} (r : Read A) : M A :=
  match r with
  | Got a => ret a
  | Failed e => raise (Psutil e)
  | Interrupted => raise KeyboardInterrupt
  end.

(** ** Recognising the process *)

(** Python strings are modelled as strings of bytes; [lower] is
    [str.lower()] on ASCII letters. *)
Definition lower_ascii (c : ascii) : ascii :=
  let n := nat_of_ascii c in
  if Nat.leb 65 n && Nat.leb n 90 then ascii_of_nat (n + 32) else c.

Fixpoint lower (s : string) : string :=
  match s with
  | EmptyString => EmptyString
  | String c rest => String (lower_ascii c) (lower rest)
  end.

(** [sep.join(xs)]. *)
Fixpoint join (sep : string) (xs : list string) : string :=
  match xs with
  | [] => EmptyString
  | [x] => x
  | x :: rest => (x ++ sep ++ join sep rest)%string
  end.

(** [s.startswith(p)], and [needle in hay] on strings. *)
Fixpoint starts_with (s p : string) : bool :=
  match p, s with
  | EmptyString, _ => true
  | String a p', String b s' => Ascii.eqb a b && starts_with s' p'
  | String _ _, EmptyString => false
  end.

Fixpoint contains (needle hay : string) : bool :=
  starts_with hay needle
  || match hay with
     | EmptyString => false
     | String _ rest => contains needle rest
     end.

(** An entry of the dict [proc.info]: the key may be absent, and psutil
    stores [None] for a value it was not allowed to read. *)
Inductive Entry (A : Type) : Type :=
| Absent
| IsNone
| Value (a : A).
Arguments Absent {A}.
Arguments IsNone {A}.
Arguments Value {A} a.

(** A process as [psutil.process_iter(['pid', 'name', 'cmdline'])] yields
    it. *)
Record Proc : Type := mkProc {
  proc_pid : Z;
  info_name : Entry string;
  info_cmdline : Entry (list string)
}.

(** The two exceptions that the body of [_is_rusty_audio_process] can
    raise: [None.lower()] and [' '.join(None)].  Neither is caught by its
    [except (psutil.AccessDenied, psutil.NoSuchProcess)]. *)
Inductive MatchExc : Type :=
| NoneHasNoLower
| CannotJoinNone.

Inductive Verdict : Type :=
| Says (b : bool)
| Fails (e : MatchExc).

(** [d.get(key, default)]. *)
Definition get_default {A} (e : Entry A) (default : A) : option A :=
  match e with
  | Absent => Some default
  | IsNone => None
  | Value a => Some a
  end.

(** [_is_rusty_audio_process] on an entry of [process_iter].  The body of
    the [try] reads the cached dict only, so that no psutil exception
    arises in it and the [except] clause never runs. *)
Definition _is_rusty_audio_process (proc : Proc) : Verdict :=
  match get_default (info_name proc) EmptyString with
  | None => Fails NoneHasNoLower
  | Some n =>
      let name := lower n in
      match get_default (info_cmdline proc) [] with
      | None => Fails CannotJoinNone
      | Some l =>
          let cmdline := lower (join " " l) in
          Says (contains "rusty" name
                || contains "rusty-audio" cmdline
                || contains "rusty_audio" name)
      end
  end.

(** The object that [_is_rusty_audio_process] is called on: an entry of
    [process_iter], which carries the dict [info], or the result of
    [psutil.Process(pid)], which has no attribute [info] (psutil sets it
    in [process_iter] only). *)
Inductive Handle : Type :=
| Iterated (proc : Proc)
| Opened (p : Z).

Definition exc_of (e : MatchExc) : Exc :=
  match e with
  | NoneHasNoLower => AttributeError
  | CannotJoinNone => TypeError
  end.

(** The call [self._is_rusty_audio_process(proc)]: on an opened handle
    [proc.info] raises [AttributeError]; on an entry the exceptions of the
    body come out as they are. *)
Definition call_is_rusty (h : Handle) : M bool :=
  match h with
  | Opened _ => raise AttributeError
  | Iterated proc =>
      match _is_rusty_audio_process proc with
      | Says b => ret b
      | Fails e => raise (exc_of e)
      end
  end.

(** Answers to [_find_process]: [pid_exists] tells whether
    [psutil.Process(self.pid)] finds the process, [false] for
    [NoSuchProcess]; [process_iter] lists the running processes. *)
Record Finder : Type := mkFinder {
  pid_exists : bool;
  process_iter : list Proc
}.

(** Answers to one call of [collect_metrics].  The three reads guarded by
    a bare [except:] are [None] when they raise. *)
Record Probe : Type := mkProbe {
  is_running : bool;
  finder : Finder;
  read_cpu_percent : Read Q;
  read_rss : Read Z;
  num_threads : option Z;
  win32 : bool;
  num_handles : option Z;
  io_counters : option (Z * Z);
  read_memory_percent : Read Q;
  now_iso : string;
  now : Q
}.

(** Answers to [save_metrics]: [self.process.name()] and whether the file
    can be opened for writing. *)
Record Closing : Type := mkClosing {
  read_name : Read string;
  open_ok : bool
}.

(** ** The class PerformanceMonitor *)

Definition default_thresholds : Thresholds :=
  mkThresholds 25 500 10 20.

(** The assignments of [__init__] before [self._find_process()]. *)
Definition fresh (p : option Z) (size : nat) : Monitor :=
  mkMonitor p None size
    (deque_new size) (deque_new size) (deque_new size)
    (deque_new size) (deque_new size)
    (deque_new size) 0%Z 0%Z
    default_thresholds.

Definition set_process (h : option Z) (m : Monitor) : Monitor :=
  mkMonitor (pid m) h (history_size m) (cpu_history m) (memory_history m)
    (thread_count_history m) (handle_count_history m) (time_history m)
    (audio_latency_history m) (xrun_count m) (frame_drops m) (thresholds m).

Definition set_pid (p : option Z) (m : Monitor) : Monitor :=
  mkMonitor p (process m) (history_size m) (cpu_history m) (memory_history m)
    (thread_count_history m) (handle_count_history m) (time_history m)
    (audio_latency_history m) (xrun_count m) (frame_drops m) (thresholds m).

Definition set_cpu_history (d : deque Q) (m : Monitor) : Monitor :=
  mkMonitor (pid m) (process m) (history_size m) d (memory_history m)
    (thread_count_history m) (handle_count_history m) (time_history m)
    (audio_latency_history m) (xrun_count m) (frame_drops m) (thresholds m).

Definition set_memory_history (d : deque Q) (m : Monitor) : Monitor :=
  mkMonitor (pid m) (process m) (history_size m) (cpu_history m) d
    (thread_count_history m) (handle_count_history m) (time_history m)
    (audio_latency_history m) (xrun_count m) (frame_drops m) (thresholds m).

Definition set_thread_count_history (d : deque Z) (m : Monitor) : Monitor :=
  mkMonitor (pid m) (process m) (history_size m) (cpu_history m)
    (memory_history m) d (handle_count_history m) (time_history m)
    (audio_latency_history m) (xrun_count m) (frame_drops m) (thresholds m).

Definition set_handle_count_history (d : deque Z) (m : Monitor) : Monitor :=
  mkMonitor (pid m) (process m) (history_size m) (cpu_history m)
    (memory_history m) (thread_count_history m) d (time_history m)
    (audio_latency_history m) (xrun_count m) (frame_drops m) (thresholds m).

Definition set_time_history (d : deque Q) (m : Monitor) : Monitor :=
  mkMonitor (pid m) (process m) (history_size m) (cpu_history m)
    (memory_history m) (thread_count_history m) (handle_count_history m) d
    (audio_latency_history m) (xrun_count m) (frame_drops m) (thresholds m).

(** The truth value of [self.pid]: [None] and [0] are false. *)
Definition truthy_pid (p : option Z) : option Z :=
  match p with
  | Some n => if Z.eqb n 0 then None else Some n
  | None => None
  end.

(** The [for proc in psutil.process_iter(...)] loop with its [break]. *)
Fixpoint scan_processes (procs : list Proc) : M unit :=
  match procs with
  | [] => ret tt
  | proc :: rest =>
      rusty <- call_is_rusty (Iterated proc) ;;
      if rusty then
        set_self (set_process (Some (proc_pid proc))) ;;;
        set_self (set_pid (Some (proc_pid proc))) ;;;
        print (FoundProcess (proc_pid proc))
      else scan_processes rest
  end.

Definition _find_process (f : Finder) : M unit :=
  self <- get_self ;;
  match truthy_pid (pid self) with
  | Some p =>
      if pid_exists f then
        set_self (set_process (Some p)) ;;;
        rusty <- call_is_rusty (Opened p) ;;
        if negb rusty then print (WarnNotRusty p) else ret tt
      else
        print (ErrNoProcessWithPid p) ;;;
        raise (SystemExit 1)
  | None =>
      scan_processes (process_iter f) ;;;
      self <- get_self ;;
      match process self with
      | Some _ => ret tt
      | None =>
          print ErrCouldNotFind ;;;
          print HintStartOrPid ;;;
          raise (SystemExit 1)
      end
  end.

(** [PerformanceMonitor(pid, history_size)]. *)
Definition __init__ (p : option Z) (size : nat) (f : Finder) : M unit :=
  set_self (fun _ => fresh p size) ;;;
  _find_process f.

(** The list [warnings] built by [_check_thresholds]. *)
Definition threshold_warnings (th : Thresholds) (metrics : Metrics) : list Line :=
  let warnings := [] in
  let warnings :=
    if Qgtb (cpu_percent metrics) (th_cpu_percent th)
    then warnings ++ [HighCpu (cpu_percent metrics) (th_cpu_percent th)]
    else warnings in
  let warnings :=
    if Qgtb (memory_mb metrics) (th_memory_mb th)
    then warnings ++ [HighMemory (memory_mb metrics) (th_memory_mb th)]
    else warnings in
  let warnings :=
    if Zgtb (thread_count metrics) (th_thread_count th)
    then warnings ++ [HighThreadCount (thread_count metrics) (th_thread_count th)]
    else warnings in
  warnings.

Definition _check_thresholds (metrics : Metrics) : M unit :=
  self <- get_self ;;
  for_each (threshold_warnings (thresholds self) metrics) print.

Definition or_zero (r : option Z) : Z :=
  match r with Some n => n | None => 0%Z end.

Definition collect_metrics (p : Probe) : M (option Metrics) :=
  self <- get_self ;;
  (match process self with
   | None => _find_process (finder p)
   | Some _ => if negb (is_running p) then _find_process (finder p) else ret tt
   end) ;;;
  try_except_psutil
    (self <- get_self ;;
     match process self with
     | None => raise AttributeError
     | Some _ =>
         cpu <- read (read_cpu_percent p) ;;
         rss <- read (read_rss p) ;;
         let mb := inject_Z rss / inject_Z (1024 * 1024) in
         let threads := or_zero (num_threads p) in
         let handles := if win32 p then or_zero (num_handles p) else 0%Z in
         let '(rd, wr) :=
           match io_counters p with Some io => io | None => (0%Z, 0%Z) end in
         pct <- read (read_memory_percent p) ;;
         let metrics := mkMetrics (now_iso p) cpu mb pct threads handles rd wr in
         let current_time := now p in
         set_self (fun m => set_cpu_history (append (cpu_history m) cpu) m) ;;;
         set_self (fun m => set_memory_history (append (memory_history m) mb) m) ;;;
         set_self (fun m => set_thread_count_history
                              (append (thread_count_history m) threads) m) ;;;
         set_self (fun m => set_handle_count_history
                              (append (handle_count_history m) handles) m) ;;;
         set_self (fun m => set_time_history
                              (append (time_history m) current_time) m) ;;;
         _check_thresholds metrics ;;;
         ret (Some metrics)
     end)
    (fun e => print (ErrCollecting e) ;;; ret None).

Definition print_metrics (metrics : option Metrics) : M unit :=
  match metrics with
  | None => ret tt
  | Some m =>
      print (Stamp (timestamp m)) ;;;
      print (Current (cpu_percent m) (memory_mb m) (memory_percent m)
               (thread_count m) (handle_count m)) ;;;
      self <- get_self ;;
      if Z.leb 10 (dlen (cpu_history self)) then
        avg_cpu <- lift (truediv (Py.sum (last_n 10 (to_list (cpu_history self)))) 10) ;;
        avg_memory <- lift (truediv (Py.sum (last_n 10 (to_list (memory_history self)))) 10) ;;
        print (Average10 avg_cpu avg_memory)
      else ret tt
  end.

Definition _get_threshold_violations : M Violations :=
  self <- get_self ;;
  ret (mkViolations
         (count_if (fun cpu => Qgtb cpu (th_cpu_percent (thresholds self)))
            (to_list (cpu_history self)))
         (count_if (fun mem => Qgtb mem (th_memory_mb (thresholds self)))
            (to_list (memory_history self)))
         (count_if (fun tc => Zgtb tc (th_thread_count (thresholds self)))
            (to_list (thread_count_history self)))).

(** [sum(d) / len(d) if d else 0] and [max(d) if d else 0]. *)
Definition average_or_zero (d : deque Q) : M Q :=
  if truthy d then lift (truediv (Py.sum (to_list d)) (dlen d)) else ret 0.

Definition average_or_zeroZ (d : deque Z) : M Q :=
  if truthy d then lift (truediv (inject_Z (sumZ (to_list d))) (dlen d)) else ret 0.

Definition peak_or_zero (d : deque Q) : M Q :=
  if truthy d then lift (Py.max Qgtb (to_list d)) else ret 0.

Definition peak_or_zeroZ (d : deque Z) : M Z :=
  if truthy d then lift (Py.max Zgtb (to_list d)) else ret 0%Z.

Definition save_metrics (filename : string) (c : Closing) : M unit :=
  self <- get_self ;;
  name <- (match process self with
           | Some _ => read (read_name c)
           | None => ret "unknown"%string
           end) ;;
  cpu_avg <- average_or_zero (cpu_history self) ;;
  cpu_peak <- peak_or_zero (cpu_history self) ;;
  mem_avg <- average_or_zero (memory_history self) ;;
  mem_peak <- peak_or_zero (memory_history self) ;;
  thr_avg <- average_or_zeroZ (thread_count_history self) ;;
  thr_peak <- peak_or_zeroZ (thread_count_history self) ;;
  violations <- _get_threshold_violations ;;
  let data :=
    mkSnapshot (pid self) name (dlen (time_history self))
      (mkStats (to_list (cpu_history self)) cpu_avg cpu_peak)
      (mkStats (to_list (memory_history self)) mem_avg mem_peak)
      (mkStats (to_list (thread_count_history self)) thr_avg thr_peak)
      (thresholds self) violations in
  (if open_ok c then emit (Dumped filename data) else raise OSError) ;;;
  print (SavedTo filename).

(** [min(10, len(d))]. *)
Definition min10 (n : Z) : Z := Z.min 10 n.

(** The callback [animate] of [plot_realtime]: one frame of the chart.
    Only the text panel is kept of what is drawn. *)
Definition animate (p : Probe) : M unit :=
  metrics <- collect_metrics p ;;
  match metrics with
  | None => ret tt
  | Some m =>
      self <- get_self ;;
      avg_cpu <- lift (truediv (Py.sum (last_n 10 (to_list (cpu_history self))))
                         (min10 (dlen (cpu_history self)))) ;;
      avg_memory <- lift (truediv (Py.sum (last_n 10 (to_list (memory_history self))))
                            (min10 (dlen (memory_history self)))) ;;
      emit (Drawn (mkPanel (cpu_percent m) (memory_mb m) (thread_count m)
                     (handle_count m) avg_cpu avg_memory))
  end.

(** [plot_realtime]: the timer calls [animate] once per supplied frame;
    the window is closed after the last one and [plt.show()] returns. *)
Definition plot_realtime (has_matplotlib : bool) (frames : list Probe) : M unit :=
  if negb has_matplotlib then print PlotNeedsMatplotlib
  else for_each frames animate.

(** ** The command line *)

Record Args : Type := mkArgs {
  arg_pid : option Z;
  arg_duration : Z;
  arg_interval : Q;
  arg_plot : bool;
  arg_benchmark : bool;
  arg_output : string
}.

(** One iteration of a sampling loop: the answers to [collect_metrics],
    the clock read by the duration test, and whether the keyboard
    interrupts the [time.sleep] that follows. *)
Record Tick : Type := mkTick {
  probe : Probe;
  clock_after : Q;
  sleep_interrupted : bool
}.

Record Env : Type := mkEnv {
  has_matplotlib : bool;
  startup : Finder;
  start_clock : Q;
  ticks : list Tick;
  frames : list Probe;
  closing : Closing;
  bench_pid : Z;
  bench_stdout : string
}.

(** [time.sleep(seconds)]. *)
Definition sleep (seconds : Q) (interrupted : bool) : M unit :=
  if Qgtb 0 seconds then raise ValueError
  else if interrupted then raise KeyboardInterrupt
  else emit (Slept seconds).

(** The [while True:] loop of [main]. *)
Fixpoint monitor_loop (args : Args) (start_time : Q) (script : list Tick) : M unit :=
  match script with
  | [] => still_running
  | t :: rest =>
      metrics <- collect_metrics (probe t) ;;
      print_metrics metrics ;;;
      if Z.ltb 0 (arg_duration args)
         && Qle_bool (inject_Z (arg_duration args)) (clock_after t - start_time)
      then ret tt
      else
        sleep (arg_interval args) (sleep_interrupted t) ;;;
        monitor_loop args start_time rest
  end.

(** The body of the [finally:] clause of [main]. *)
Definition finalize (args : Args) (c : Closing) : M unit :=
  save_metrics (arg_output args) c ;;;
  violations <- _get_threshold_violations ;;
  print SummaryHeader ;;;
  monitor <- get_self ;;
  cpu_avg <- lift (truediv (Py.sum (to_list (cpu_history monitor)))
                     (dlen (cpu_history monitor))) ;;
  print (CpuAverage cpu_avg) ;;;
  cpu_peak <- lift (Py.max Qgtb (to_list (cpu_history monitor))) ;;
  print (CpuPeak cpu_peak) ;;;
  mem_avg <- lift (truediv (Py.sum (to_list (memory_history monitor)))
                     (dlen (memory_history monitor))) ;;
  print (MemoryAverage mem_avg) ;;;
  mem_peak <- lift (Py.max Qgtb (to_list (memory_history monitor))) ;;
  print (MemoryPeak mem_peak) ;;;
  print ViolationsHeader ;;;
  print (CpuTimes (th_cpu_percent (thresholds monitor)) (cpu_exceeded violations)) ;;;
  print (MemoryTimes (th_memory_mb (thresholds monitor)) (memory_exceeded violations)) ;;;
  print (ThreadsTimes (th_thread_count (thresholds monitor)) (thread_exceeded violations)).

(** The [else:] branch of [main]: [try] / [except KeyboardInterrupt] /
    [finally]. *)
Definition console_run (args : Args) (env : Env) : M unit :=
  try_finally
    (try_except_KeyboardInterrupt
       (monitor_loop args (start_clock env) (ticks env))
       (print StoppedByUser))
    (finalize args (closing env)).

(** The [while benchmark_proc.poll() is None:] loop.  The supplied ticks
    are the iterations at which the benchmark still runs. *)
Fixpoint bench_loop (script : list Tick) : M unit :=
  match script with
  | [] => ret tt
  | t :: rest =>
      metrics <- collect_metrics (probe t) ;;
      print_metrics metrics ;;;
      sleep 1 (sleep_interrupted t) ;;;
      bench_loop rest
  end.

Definition run_benchmark_and_monitor (env : Env) : M unit :=
  print BenchStarting ;;;
  __init__ (Some (bench_pid env)) 100 (startup env) ;;;
  try_except_KeyboardInterrupt
    (bench_loop (ticks env))
    (emit (Terminated (bench_pid env))) ;;;
  print BenchResults ;;;
  print (BenchStdout (bench_stdout env)) ;;;
  save_metrics "benchmark_performance.json" (closing env).

Definition main_body (args : Args) (env : Env) : M unit :=
  if arg_benchmark args then run_benchmark_and_monitor env
  else
    __init__ (arg_pid args) 100 (startup env) ;;;
    if arg_plot args && has_matplotlib env
    then plot_realtime (has_matplotlib env) (frames env)
    else console_run args env.

(** The program, started with an empty trace.  The monitor object does not
    exist before [__init__] assigns it; the placeholder is never read. *)
Definition main (args : Args) (env : Env) : option (Res unit * World) :=
  main_body args env (mkWorld (fresh None 100) []).

(** The outcome and the trace of a run. *)
Definition outcome (r : option (Res unit * World)) : option (Res unit) :=
  option_map fst r.

Definition trace (r : option (Res unit * World)) : list Event :=
  match r with Some (_, w) => out w | None => [] end.

(** ** Sequences of calls *)

(** [collect_metrics] called once per probe, as a sampling loop does: the
    non-empty dicts it returned, in order, and the world it leaves.  The
    sequence stops at the first call that raises. *)
Fixpoint collect_all (ps : list Probe) (w : World) : list Metrics * World :=
  match ps with
  | [] => ([], w)
  | p :: rest =>
      match collect_metrics p w with
      | Some (Ok (Some m), w1) =>
          let '(ms, w2) := collect_all rest w1 in (m :: ms, w2)
      | Some (Ok None, w1) => collect_all rest w1
      | Some (Raise _, w1) => ([], w1)
      | None => ([], w)
      end
  end.

(** A monitor as [__init__] leaves it when a process was found. *)
Definition started (p : option Z) (size : nat) (handle : Z) : World :=
  mkWorld (set_process (Some handle) (fresh p size)) [].

(** The five histories that [collect_metrics] appends to. *)
Definition histories (m : Monitor)
  : deque Q * deque Q * deque Z * deque Z * deque Q :=
  (cpu_history m, memory_history m, thread_count_history m,
   handle_count_history m, time_history m).



(** What a successful call of [collect_metrics] does to the histories. *)
Definition pushed (p : Probe) (m : Metrics) (before after : Monitor) : Prop :=
  cpu_history after = append (cpu_history before) (cpu_percent m) /\
  memory_history after = append (memory_history before) (memory_mb m) /\
  thread_count_history after
    = append (thread_count_history before) (thread_count m) /\
  handle_count_history after
    = append (handle_count_history before) (handle_count m) /\
  time_history after = append (time_history before) (now p).

(** The three reads of the [try] block that are not guarded by a bare
    [except:]; [None] when one of them does not deliver. *)
Definition reads (p : Probe) : option (Q * Z * Q) :=
  match read_cpu_percent p, read_rss p, read_memory_percent p with
  | Got cpu, Got rss, Got pct => Some (cpu, rss, pct)
  | _, _, _ => None
  end.

(** The first of the three reads that fails, in the order of the [try]
    block, when no read before it is interrupted. *)
Definition failure (p : Probe) : option PsErr :=
  match read_cpu_percent p with
  | Failed e => Some e
  | Interrupted => None
  | Got _ =>
      match read_rss p with
      | Failed e => Some e
      | Interrupted => None
      | Got _ =>
          match read_memory_percent p with
          | Failed e => Some e
          | _ => None
          end
      end
  end.

(** The metrics that [_check_thresholds] tests, in the order of its three
    [if] statements. *)
Inductive Checked : Type :=
| Cpu
| Memory
| ThreadCount.

Definition check_order : list Checked := [Cpu; Memory; ThreadCount].

(** The observed value is strictly greater than the configured limit. *)
Definition over_limit (th : Thresholds) (m : Metrics) (k : Checked) : Prop :=
  match k with
  | Cpu => th_cpu_percent th < cpu_percent m
  | Memory => th_memory_mb th < memory_mb m
  | ThreadCount => (th_thread_count th < thread_count m)%Z
  end.

Definition over_limitb (th : Thresholds) (m : Metrics) (k : Checked) : bool :=
  match k with
  | Cpu => Qgtb (cpu_percent m) (th_cpu_percent th)
  | Memory => Qgtb (memory_mb m) (th_memory_mb th)
  | ThreadCount => Zgtb (thread_count m) (th_thread_count th)
  end.

(** The warning for a metric: its name with the observed value and the
    limit. *)
Definition warning_for (th : Thresholds) (m : Metrics) (k : Checked) : Line :=
  match k with
  | Cpu => HighCpu (cpu_percent m) (th_cpu_percent th)
  | Memory => HighMemory (memory_mb m) (th_memory_mb th)
  | ThreadCount => HighThreadCount (thread_count m) (th_thread_count th)
  end.

(** The arithmetic mean of a list: its sum divided by its length. *)
Definition mean (xs : list Q) : Q := Py.sum xs / inject_Z (len xs).

(** The values that [save_metrics] stores for a history: the mean and the
    maximum, and 0 for both when the history is empty. *)
Definition average_value (xs : list Q) : Q :=
  match xs with
  | [] => 0
  | _ :: _ => mean xs
  end.

Definition peak_value {A} (gt : A -> A -> bool) (zero : A) (xs : list A) : A :=
  match xs with
  | [] => zero
  | x :: rest => max_from gt x rest
  end.

(** The dict [data] of [save_metrics] for a process name, when no part of
    it raises. *)
Definition snapshot_of (name : string) (m : Monitor) : Snapshot :=
  mkSnapshot (pid m) name (dlen (time_history m))
    (mkStats (to_list (cpu_history m))
       (average_value (to_list (cpu_history m)))
       (peak_value Qgtb 0 (to_list (cpu_history m))))
    (mkStats (to_list (memory_history m))
       (average_value (to_list (memory_history m)))
       (peak_value Qgtb 0 (to_list (memory_history m))))
    (mkStats (to_list (thread_count_history m))
       (match to_list (thread_count_history m) with
        | [] => 0
        | _ :: _ => inject_Z (sumZ (to_list (thread_count_history m)))
                    / inject_Z (len (to_list (thread_count_history m)))
        end)
       (peak_value Zgtb 0%Z (to_list (thread_count_history m))))
    (thresholds m)
    (mkViolations
       (count_if (fun cpu => Qgtb cpu (th_cpu_percent (thresholds m)))
          (to_list (cpu_history m)))
       (count_if (fun mem => Qgtb mem (th_memory_mb (thresholds m)))
          (to_list (memory_history m)))
       (count_if (fun tc => Zgtb tc (th_thread_count (thresholds m)))
          (to_list (thread_count_history m)))).

(** The answer to [self.process.name() if self.process else 'unknown']. *)
Definition name_read (c : Closing) (m : Monitor) : Read string :=
  match process m with
  | Some _ => read_name c
  | None => Got "unknown"%string
  end.

(** A computation that only adds to the trace. *)
Definition extends {A} (c : M A) : Prop :=
  forall w r w', c w = Some (r, w') -> exists post, out w' = out w ++ post.

(** A computation that does not depend on ticks still to come. *)
Definition returns {A} (c : M A) : Prop := forall w, c w <> None.

(** The snapshots written during a run. *)
Definition is_dump (e : Event) : bool :=
  match e with
  | Dumped _ _ => true
  | _ => false
  end.

Definition dumps (es : list Event) : list Event := filter is_dump es.

(** A tick that ends the console loop whatever the monitor holds: the
    keyboard interrupts the read of the cpu percentage or the sleep, or
    the duration has elapsed. *)
Definition stops (args : Args) (start_time : Q) (t : Tick) : bool :=
  sleep_interrupted t
  || match read_cpu_percent (probe t) with
     | Interrupted => true
     | _ => false
     end
  || (Z.ltb 0 (arg_duration args)
      && Qle_bool (inject_Z (arg_duration args)) (clock_after t - start_time)).

(** ** Sample inputs *)

(** A process table in which pid 7 is rusty-audio. *)
Definition finder7 : Finder :=
  mkFinder true
    [mkProc 3 (Value "bash"%string) (Value ["-bash"%string]);
     mkProc 7 (Value "rusty-audio"%string) (Value ["rusty-audio"%string])].

(** A tick on which the process answers, with the given cpu percentage,
    160 MB of resident memory and 4 threads. *)
Definition probe_with_cpu (cpu : Q) : Probe :=
  mkProbe true finder7 (Got cpu) (Got 167772160%Z) (Some 4%Z) false None
    (Some (10%Z, 20%Z)) (Got 2) "2024-01-01T00:00:00"%string 1000.

(** A tick on which access to the process is denied. *)
Definition denied_probe : Probe :=
  mkProbe true finder7 (Failed AccessDenied) (Got 0%Z)
    (Some 4%Z) false None None (Got 0) "2024-01-01T00:00:00"%string 1000.

(** A tick on which the keyboard interrupts [cpu_percent(interval=0.1)]. *)
Definition interrupted_probe : Probe :=
  mkProbe true finder7 Interrupted (Got 0%Z)
    (Some 4%Z) false None None (Got 0) "2024-01-01T00:00:00"%string 1000.

(** A tick on which the process is gone: the handle is not running and
    the pid cannot be opened again. *)
Definition gone_probe : Probe :=
  mkProbe false (mkFinder false []) (Failed NoSuchProcess) (Failed NoSuchProcess)
    None false None None (Failed NoSuchProcess) "2024-01-01T00:00:00"%string 1000.

(** The process name can be read and the output file written. *)
Definition closing_ok : Closing := mkClosing (Got "rusty-audio"%string) true.

(** The default command line, and the same with [--duration] or [--plot]. *)
Definition default_args : Args :=
  mkArgs None 0 1 false false "performance_metrics.json"%string.

Definition args_duration (seconds : Z) : Args :=
  mkArgs None seconds 1 false false "performance_metrics.json"%string.

Definition args_plot : Args :=
  mkArgs None 0 1 true false "performance_metrics.json"%string.

(** An environment for a run of the console loop over the given ticks. *)
Definition env_of (script : list Tick) : Env :=
  mkEnv true finder7 1000 script [] closing_ok 99 ""%string.

(** A monitor that recorded the cpu percentages 10 and 30. *)
Definition two_samples : World :=
  snd (collect_all [probe_with_cpu 10; probe_with_cpu 30]
         (started (Some 7%Z) 100 7)).

(** A monitor with the default thresholds (cpu limit 25) that recorded
    the cpu percentages 10, 30, 5 and 40. *)
Definition four_samples : World :=
  snd (collect_all (map probe_with_cpu [10; 30; 5; 40])
         (started (Some 7%Z) 100 7)).

(** The dict that [collect_metrics] returns on [probe_with_cpu 5]. *)
Definition metrics_cpu5 : Metrics :=
  mkMetrics "2024-01-01T00:00:00" 5 (inject_Z 167772160 / inject_Z (1024 * 1024))
    2 4 0 10 20.

(** A run in which the keyboard interrupts the very first tick. *)
Definition env_interrupted_at_once : Env :=
  env_of [mkTick interrupted_probe 1000 false].

(** A run with the live chart: two frames, then the window is closed. *)
Definition env_two_frames : Env :=
  mkEnv true finder7 1000 [] [probe_with_cpu 10; probe_with_cpu 30]
    closing_ok 99 ""%string.

(** Three runs of the console loop, one per way of ending: the process
    is lost at the second tick; the keyboard interrupts the sleep after
    the second tick; a duration of 5 seconds has elapsed at the second
    tick. *)
Definition env_process_lost : Env :=
  env_of [mkTick (probe_with_cpu 10) 1001 false; mkTick gone_probe 1002 false].

Definition env_interrupted : Env :=
  env_of [mkTick (probe_with_cpu 10) 1001 false;
          mkTick (probe_with_cpu 30) 1002 true].

Definition env_duration : Env :=
  env_of [mkTick (probe_with_cpu 10) 1001 false;
          mkTick (probe_with_cpu 30) 1006 false].

(** An entry of the table on which the recogniser does not answer "no":
    it accepts the process, or it raises. *)
Definition decisive (proc : Proc) : bool :=
  match _is_rusty_audio_process proc with
  | Says false => false
  | _ => true
  end.

(** ** Counting in the trace *)

(** A computation that only adds to the trace, and adds no event that
    [sel] selects. *)
Definition adds_none {A} (sel : Event -> bool) (c : M A) : Prop :=
  forall w r w',
    c w = Some (r, w') ->
    exists post, out w' = out w ++ post /\ filter sel post = [].

Definition is_high_cpu (e : Event) : bool :=
  match e with
  | Printed (HighCpu _ _) => true
  | _ => false
  end.

(** The sample that [collect_metrics] builds from the answers of a tick
    on which the three reads deliver. *)
Definition sample_of (p : Probe) (cpu : Q) (rss : Z) (pct : Q) : Metrics :=
  mkMetrics (now_iso p) cpu (inject_Z rss / inject_Z (1024 * 1024)) pct
    (or_zero (num_threads p))
    (if win32 p then or_zero (num_handles p) else 0%Z)
    (fst (match io_counters p with Some io => io | None => (0%Z, 0%Z) end))
    (snd (match io_counters p with Some io => io | None => (0%Z, 0%Z) end)).

(** A process table: a shell, an editor whose command line names a file
    of rusty-audio, and the player itself. *)
Definition sample_table : list Proc :=
  [mkProc 3 (Value "bash"%string) (Value ["-bash"%string]);
   mkProc 5 (Value "vim"%string)
     (Value ["vim"%string; "Rusty-Audio/README.md"%string]);
   mkProc 7 (Value "RUSTY_AUDIO.exe"%string) (Value [])].

(** What sampling never writes: the capacity, the history of audio
    latencies and the two counters of audio faults. *)
Definition untracked (m : Monitor) : nat * deque Q * Z * Z :=
  (history_size m, audio_latency_history m, xrun_count m, frame_drops m).

(** What a method keeps of the monitor: a handle once there, the
    untracked fields and the thresholds. *)
Definition kept (before after : Monitor) : Prop :=
  (process before <> None -> process after <> None) /\
  untracked after = untracked before /\
  thresholds after = thresholds before.

(** A handle that is reported dead, with a pid that cannot be opened
    again and one that can. *)
Definition dead_probe (reopened : bool) : Probe :=
  mkProbe false (mkFinder reopened []) (Got 30) (Got 167772160%Z) (Some 4%Z)
    false None None (Got 2) "2024-01-01T00:00:00"%string 1000.

(** The command line with [--benchmark]. *)
Definition args_benchmark : Args :=
  mkArgs None 0 1 false true "performance_metrics.json"%string.

(** * Properties *)

(** ** The bounded deque *)

Section Deque.
Context {A : Type}.
Local Open Scope nat_scope.
Implicit Types (d : deque A) (x : A) (xs : list A).

Lemma last_n_all n xs : length xs <= n -> last_n n xs = xs.
Proof.
  intros H. unfold last_n.
  replace (length xs - n)%nat with 0%nat by lia. reflexivity.
Qed.

Lemma last_n_length n xs : length (last_n n xs) = Nat.min n (length xs).
Proof. unfold last_n. rewrite length_skipn. lia. Qed.

Lemma last_n_app n xs ys :
  last_n n (last_n n xs ++ ys) = last_n n (xs ++ ys).
Proof.
  destruct (Nat.le_gt_cases (length xs) n) as [Hle | Hgt].
  - rewrite (last_n_all n xs) by exact Hle. reflexivity.
  - unfold last_n at 1 3. rewrite !length_app, last_n_length.
    rewrite !skipn_app, last_n_length. unfold last_n.
    rewrite skipn_skipn. f_equal; f_equal; lia.
Qed.

Lemma tl_skipn xs : tl xs = skipn 1 xs.
Proof. destruct xs; reflexivity. Qed.

(** One [append] keeps the last [maxlen] of the old items and the new
    one. *)
Lemma append_items d x :
  length (items d) <= maxlen d ->
  items (append d x) = last_n (maxlen d) (items d ++ [x]).
Proof.
  intros Hle. unfold append, last_n. rewrite length_app. simpl.
  destruct (Nat.ltb_spec (maxlen d) (length (items d) + 1)) as [Hlt | Hge]; simpl.
  - rewrite tl_skipn. f_equal. lia.
  - replace (length (items d) + 1 - maxlen d)%nat with 0%nat by lia. reflexivity.
Qed.

Lemma append_maxlen d x : maxlen (append d x) = maxlen d.
Proof. unfold append. destruct (Nat.ltb _ _); reflexivity. Qed.

Lemma append_length d x :
  length (items d) <= maxlen d ->
  length (items (append d x)) = Nat.min (maxlen d) (length (items d) + 1).
Proof.
  intros H. rewrite append_items by exact H.
  rewrite last_n_length, length_app. reflexivity.
Qed.

Lemma append_bounded d x :
  length (items d) <= maxlen d ->
  length (items (append d x)) <= maxlen (append d x).
Proof.
  intros H. rewrite append_maxlen, append_length by exact H. lia.
Qed.

(** Appending a run of items, one [append] each. *)
Lemma fold_append d xs :
  length (items d) <= maxlen d ->
  items (fold_left append xs d) = last_n (maxlen d) (items d ++ xs) /\
  maxlen (fold_left append xs d) = maxlen d.
Proof.
  revert d. induction xs as [| x xs IH]; intros d Hle; simpl.
  - rewrite app_nil_r, last_n_all by exact Hle. split; reflexivity.
  - destruct (IH (append d x) (append_bounded d x Hle)) as [Hi Hm].
    rewrite Hi, Hm, append_maxlen, append_items by exact Hle.
    rewrite last_n_app, <- app_assoc. split; reflexivity.
Qed.

End Deque.

(** ** What the methods do to the monitor *)

Lemma world_eta w : mkWorld (mon w) (out w) = w.
Proof. destruct w; reflexivity. Qed.

Lemma for_each_print ls w :
  for_each ls print w = Some (Ok tt, mkWorld (mon w) (out w ++ map Printed ls)).
Proof.
  revert w. induction ls as [| l ls IH]; intros w; simpl.
  - rewrite app_nil_r, world_eta. reflexivity.
  - unfold bind, print, emit. rewrite IH. simpl.
    rewrite <- app_assoc. reflexivity.
Qed.

(** The call of the recogniser changes nothing in the world. *)
Lemma call_is_rusty_run h w : exists r, call_is_rusty h w = Some (r, w).
Proof.
  destruct h as [proc | p]; simpl; [| eexists; reflexivity].
  destruct (_is_rusty_audio_process proc); eexists; reflexivity.
Qed.

Lemma exc_of_cases e : exc_of e = AttributeError \/ exc_of e = TypeError.
Proof. destruct e; auto. Qed.

Lemma scan_processes_spec procs w :
  exists r w',
    scan_processes procs w = Some (r, w') /\
    histories (mon w') = histories (mon w) /\
    thresholds (mon w') = thresholds (mon w) /\
    (process (mon w) <> None -> process (mon w') <> None) /\
    match r with
    | Ok _ => True
    | Raise e => e = AttributeError \/ e = TypeError
    end.
Proof.
  induction procs as [| proc rest IH]; simpl.
  - exists (Ok tt), w. repeat split; auto.
  - unfold bind at 1.
    destruct (_is_rusty_audio_process proc) as [[] | e].
    + do 2 eexists. split; [reflexivity |]. simpl. repeat split; auto.
      discriminate.
    + exact IH.
    + do 2 eexists. split; [reflexivity |]. repeat split; auto.
      apply exc_of_cases.
Qed.

(** [_find_process] touches neither the histories nor the thresholds; it
    returns with a process handle, or leaves through [sys.exit(1)] or
    with an exception of the recogniser. *)
Lemma find_process_spec f w :
  exists r w',
    _find_process f w = Some (r, w') /\
    histories (mon w') = histories (mon w) /\
    thresholds (mon w') = thresholds (mon w) /\
    match r with
    | Ok _ => process (mon w') <> None
    | Raise e => e = SystemExit 1 \/ e = AttributeError \/ e = TypeError
    end.
Proof.
  unfold _find_process, bind at 1, get_self at 1.
  destruct (truthy_pid (pid (mon w))) as [p |].
  - destruct (pid_exists f); simpl;
      do 2 eexists; (split; [reflexivity |]); simpl; repeat split; auto.
  - unfold bind at 1.
    destruct (scan_processes_spec (process_iter f) w)
      as (r1 & w1 & E & Hh & Ht & _ & Hr).
    rewrite E. destruct r1 as [[] | e].
    + unfold bind, get_self. destruct (process (mon w1)) eqn:Hp; simpl.
      * do 2 eexists. split; [reflexivity |]. repeat split; auto. congruence.
      * do 2 eexists. split; [reflexivity |]. simpl. repeat split; auto.
    + do 2 eexists. split; [reflexivity |]. repeat split; auto.
Qed.

(** [collect_metrics] always comes back; it returns a sample exactly when
    it pushed that sample on the five histories, and otherwise leaves them
    as they were. *)
Lemma collect_metrics_spec p w :
  exists r w',
    collect_metrics p w = Some (r, w') /\
    thresholds (mon w') = thresholds (mon w) /\
    match r with
    | Ok (Some m) =>
        pushed p m (mon w) (mon w') /\
        reads p = Some (cpu_percent m,
                        match read_rss p with Got rss => rss | _ => 0%Z end,
                        memory_percent m)
    | Ok None => histories (mon w') = histories (mon w) /\ failure p <> None
    | Raise _ => histories (mon w') = histories (mon w)
    end.
Proof.
  unfold collect_metrics.
  set (prelude := match process (mon w) with
                  | None => _find_process (finder p)
                  | Some _ => if negb (is_running p)
                              then _find_process (finder p) else ret tt
                  end).
  assert (Hpre : exists r1 w1, prelude w = Some (r1, w1) /\
                   histories (mon w1) = histories (mon w) /\
                   thresholds (mon w1) = thresholds (mon w)).
  { subst prelude. destruct (process (mon w)).
    - destruct (negb (is_running p)).
      + destruct (find_process_spec (finder p) w) as (r & w' & E & H1 & H2 & _).
        exists r, w'. auto.
      + exists (Ok tt), w. auto.
    - destruct (find_process_spec (finder p) w) as (r & w' & E & H1 & H2 & _).
      exists r, w'. auto. }
  destruct Hpre as (r1 & w1 & E1 & Hh1 & Ht1).
  unfold bind at 1. unfold get_self at 1. fold prelude.
  unfold bind at 1. rewrite E1.
  destruct r1 as [[] | e].
  2:{ do 2 eexists. split; [reflexivity |]. split; assumption. }
  unfold try_except_psutil, bind, get_self, reads, failure.
  unfold histories in Hh1. injection Hh1 as Hc Hm Ht Hhd Hti.
  assert (Hsame : histories (mon w1) = histories (mon w))
    by (unfold histories; congruence).
  destruct (process (mon w1)).
  2:{ simpl. do 2 eexists. split; [reflexivity |]. simpl. auto. }
  destruct (read_cpu_percent p) as [cpu | e | ]; simpl;
    try (do 2 eexists; split; [reflexivity |]; simpl;
         split; [assumption |]; first [exact Hsame | split; [exact Hsame | discriminate]]).
  destruct (read_rss p) as [rss | e | ]; simpl;
    try (do 2 eexists; split; [reflexivity |]; simpl;
         split; [assumption |]; first [exact Hsame | split; [exact Hsame | discriminate]]).
  destruct (io_counters p) as [[rd wr] |];
  (destruct (read_memory_percent p) as [pct | e | ]; simpl;
    try (do 2 eexists; split; [reflexivity |]; simpl;
         split; [assumption |]; first [exact Hsame | split; [exact Hsame | discriminate]]));
  unfold _check_thresholds, bind, get_self; rewrite for_each_print; simpl;
  (do 2 eexists; split; [reflexivity |]; simpl;
   split; [assumption |]; split; [| reflexivity];
   unfold pushed; simpl; repeat split; congruence).
Qed.

(** The histories after a sequence of calls: every returned sample was
    appended, in order, and nothing else was. *)
Lemma collect_all_pushes ps w :
  let '(ms, w') := collect_all ps w in
  cpu_history (mon w') = fold_left append (map cpu_percent ms) (cpu_history (mon w)) /\
  memory_history (mon w')
    = fold_left append (map memory_mb ms) (memory_history (mon w)) /\
  thread_count_history (mon w')
    = fold_left append (map thread_count ms) (thread_count_history (mon w)) /\
  handle_count_history (mon w')
    = fold_left append (map handle_count ms) (handle_count_history (mon w)) /\
  exists ts : list Q,
    length ts = length ms /\
    time_history (mon w') = fold_left append ts (time_history (mon w)).
Proof.
  revert w. induction ps as [| p rest IH]; intros w; simpl.
  - repeat split; auto. exists []. split; reflexivity.
  - destruct (collect_metrics_spec p w) as (r & w1 & E & _ & Hr). rewrite E.
    destruct r as [[m |] | e].
    + specialize (IH w1). destruct (collect_all rest w1) as [ms w2].
      destruct Hr as [(Hc & Hm & Ht & Hh & Hti) _].
      destruct IH as (Ic & Im & It & Ih & ts & Hlen & Iti).
      simpl. rewrite <- Hc, <- Hm, <- Ht, <- Hh. repeat split; auto.
      exists (now p :: ts). simpl. rewrite <- Hti. split; congruence.
    + specialize (IH w1). destruct (collect_all rest w1) as [ms w2].
      destruct Hr as [Hr _].
      unfold histories in Hr. injection Hr as Hc Hm Ht Hh Hti.
      rewrite <- Hc, <- Hm, <- Ht, <- Hh, <- Hti. exact IH.
    + unfold histories in Hr. injection Hr as Hc Hm Ht Hh Hti.
      simpl. repeat split; auto. exists []. split; auto.
Qed.

Lemma last_n_map {A B} (f : A -> B) n xs :
  last_n n (map f xs) = map f (last_n n xs).
Proof. unfold last_n. rewrite length_map, skipn_map. reflexivity. Qed.

(** C1. After any sequence of calls of [collect_metrics] on a monitor of
    capacity [size], of which [N] recorded a sample, each metric's history
    is the last [size] recorded values in the order of recording; so its
    length is [N] while [N < size] and [size] from then on, and never more
    than [size]. *)
Theorem C1_history_holds_last_capacity_samples
  (p : option Z) (size : nat) (handle : Z) (ps : list Probe) :
  let '(ms, w) := collect_all ps (started p size handle) in
  let N := length ms in
  to_list (cpu_history (mon w)) = last_n size (map cpu_percent ms) /\
  to_list (memory_history (mon w)) = last_n size (map memory_mb ms) /\
  to_list (thread_count_history (mon w)) = last_n size (map thread_count ms) /\
  to_list (handle_count_history (mon w)) = last_n size (map handle_count ms) /\
  length (to_list (cpu_history (mon w))) = Nat.min size N /\
  length (to_list (memory_history (mon w))) = Nat.min size N /\
  length (to_list (thread_count_history (mon w))) = Nat.min size N /\
  length (to_list (handle_count_history (mon w))) = Nat.min size N /\
  length (to_list (time_history (mon w))) = Nat.min size N /\
  (length (to_list (cpu_history (mon w))) <= size)%nat.
Proof.
  pose proof (collect_all_pushes ps (started p size handle)) as H.
  destruct (collect_all ps (started p size handle)) as [ms w].
  destruct H as (Hc & Hm & Ht & Hh & ts & Hlen & Hti).
  simpl in Hc, Hm, Ht, Hh, Hti. unfold to_list.
  rewrite Hc, Hm, Ht, Hh, Hti.
  assert (B : forall A, (length (items (@deque_new A size)) <= maxlen (@deque_new A size))%nat)
    by (intros; simpl; lia).
  destruct (fold_append (deque_new size) (map cpu_percent ms) (B Q)) as [-> _].
  destruct (fold_append (deque_new size) (map memory_mb ms) (B Q)) as [-> _].
  destruct (fold_append (deque_new size) (map thread_count ms) (B Z)) as [-> _].
  destruct (fold_append (deque_new size) (map handle_count ms) (B Z)) as [-> _].
  destruct (fold_append (deque_new size) ts (B Q)) as [-> _].
  simpl. rewrite !last_n_length, !length_map, Hlen.
  repeat split; auto. lia.
Qed.

(** ** The five histories move together *)







(** ** A failed tick *)

(** C10 (as stated).  The process is gone: every read would raise
    [NoSuchProcess], and the handle is reported not running.
    [collect_metrics] then calls [_find_process], which cannot open the
    pid again, prints the error and leaves through [sys.exit(1)]: no
    empty dict is returned. *)
Lemma C10_lost_process_exits :
  failure gone_probe = Some NoSuchProcess /\
  collect_metrics gone_probe (started (Some 7%Z) 100 7)
  = Some (Raise (SystemExit 1),
          mkWorld (mon (started (Some 7%Z) 100 7))
            [Printed (ErrNoProcessWithPid 7)]).
Proof. split; reflexivity. Qed.

(** C10 (amended).  When the process handle is in place and reported
    running, and a [psutil] read of the [try] block raises
    [NoSuchProcess] or
    [AccessDenied], [collect_metrics] returns the empty dict, leaves the
    whole monitor (so every history) as it was and prints only the error
    line; [print_metrics] on the empty dict prints nothing and raises
    nothing. *)
Theorem C10_failed_tick_is_benign (q : Probe) (w : World) (e : PsErr) :
  process (mon w) <> None ->
  is_running q = true ->
  failure q = Some e ->
  let w' := mkWorld (mon w) (out w ++ [Printed (ErrCollecting e)]) in
  collect_metrics q w = Some (Ok None, w') /\
  histories (mon w') = histories (mon w) /\
  print_metrics None w' = Some (Ok tt, w').
Proof.
  intros Hproc Hrun Hfail. simpl.
  split; [| split; reflexivity].
  unfold collect_metrics, bind at 1, get_self at 1.
  destruct (process (mon w)) as [h |] eqn:Hp; [| congruence].
  rewrite Hrun. simpl. unfold bind at 1, ret at 1.
  unfold try_except_psutil, bind, get_self. rewrite Hp.
  unfold failure in Hfail.
  destruct (read_cpu_percent q) as [cpu | e1 |]; simpl;
    [| injection Hfail as ->; reflexivity | discriminate].
  destruct (read_rss q) as [rss | e2 |]; simpl;
    [| injection Hfail as ->; reflexivity | discriminate].
  destruct (io_counters q) as [[rd wr] |];
    (destruct (read_memory_percent q) as [pct | e3 |]; simpl;
       [discriminate | injection Hfail as ->; reflexivity | discriminate]).
Qed.

(** A tick on which access is denied, on a freshly started monitor. *)
Lemma C10_failed_tick_witness :
  collect_metrics denied_probe (started (Some 7%Z) 100 7)
  = Some (Ok None,
          mkWorld (mon (started (Some 7%Z) 100 7))
            [Printed (ErrCollecting AccessDenied)]).
Proof.
  refine (proj1 (C10_failed_tick_is_benign denied_probe
                   (started (Some 7%Z) 100 7) AccessDenied _ _ _)).
  - simpl. discriminate.
  - reflexivity.
  - reflexivity.
Defined.

(** ** Threshold evaluation *)

Lemma Qgtb_lt a b : Qgtb a b = true <-> b < a.
Proof.
  unfold Qgtb. rewrite negb_true_iff.
  split; intros H.
  - apply Qnot_le_lt. intros Hle.
    apply Qle_bool_iff in Hle. congruence.
  - destruct (Qle_bool a b) eqn:E; [| reflexivity].
    apply Qle_bool_iff in E. exfalso. exact (Qlt_not_le _ _ H E).
Qed.

Lemma Zgtb_lt a b : Zgtb a b = true <-> (b < a)%Z.
Proof. unfold Zgtb. rewrite Z.gtb_ltb, Z.ltb_lt. reflexivity. Qed.

Lemma over_limitb_iff th m k : over_limitb th m k = true <-> over_limit th m k.
Proof. destruct k; simpl; [apply Qgtb_lt | apply Qgtb_lt | apply Zgtb_lt]. Qed.

Lemma threshold_warnings_filter th m :
  threshold_warnings th m
  = map (warning_for th m) (filter (over_limitb th m) check_order).
Proof.
  unfold threshold_warnings, check_order. simpl.
  destruct (Qgtb (cpu_percent m) (th_cpu_percent th));
    destruct (Qgtb (memory_mb m) (th_memory_mb th));
    destruct (Zgtb (thread_count m) (th_thread_count th)); reflexivity.
Qed.

(** C4. The warnings of [_check_thresholds] are a function of the sample
    and the thresholds only: one warning, carrying the observed value and
    the limit, for exactly the metrics whose observed value is strictly
    greater than the limit, in the fixed order cpu, memory, thread count.
    The call prints these lines and changes nothing in the monitor, so
    that the same sample under the same thresholds prints the same lines
    whatever the histories hold. *)
Theorem C4_threshold_evaluation_is_pure (th : Thresholds) (m : Metrics) :
  threshold_warnings th m
  = map (warning_for th m) (filter (over_limitb th m) check_order) /\
  (forall k, In (warning_for th m k) (threshold_warnings th m)
             <-> over_limit th m k) /\
  (forall w,
     _check_thresholds m w
     = Some (Ok tt,
             mkWorld (mon w)
               (out w ++ map Printed
                           (threshold_warnings (thresholds (mon w)) m)))).
Proof.
  split; [apply threshold_warnings_filter |]. split.
  - intros k. rewrite threshold_warnings_filter, <- over_limitb_iff.
    split.
    + intros H. apply in_map_iff in H. destruct H as (k' & E & Hin).
      apply filter_In in Hin. destruct Hin as [_ Hk'].
      destruct k, k'; simpl in E; try discriminate; exact Hk'.
    + intros H. apply in_map. apply filter_In. split; [| exact H].
      destruct k; simpl; auto.
  - intros w. unfold _check_thresholds, bind, get_self.
    apply for_each_print.
Qed.

(** ** Saving *)

Lemma len_cons_nonzero {A} (x : A) xs : Z.eqb (len (x :: xs)) 0 = false.
Proof. unfold len. simpl length. apply Z.eqb_neq. lia. Qed.

Lemma average_or_zero_run d w :
  average_or_zero d w = Some (Ok (average_value (to_list d)), w).
Proof.
  unfold average_or_zero, truthy, average_value, mean, to_list, dlen, lift, truediv.
  destruct (items d) as [| x xs]; [reflexivity |].
  rewrite len_cons_nonzero. reflexivity.
Qed.

Lemma average_or_zeroZ_run d w :
  average_or_zeroZ d w
  = Some (Ok (match to_list d with
              | [] => 0
              | _ :: _ => inject_Z (sumZ (to_list d)) / inject_Z (len (to_list d))
              end), w).
Proof.
  unfold average_or_zeroZ, truthy, to_list, dlen, lift, truediv.
  destruct (items d) as [| x xs]; [reflexivity |].
  rewrite len_cons_nonzero. reflexivity.
Qed.

Lemma peak_or_zero_run d w :
  peak_or_zero d w = Some (Ok (peak_value Qgtb 0 (to_list d)), w).
Proof.
  unfold peak_or_zero, truthy, peak_value, to_list, lift.
  destruct (items d); reflexivity.
Qed.

Lemma peak_or_zeroZ_run d w :
  peak_or_zeroZ d w = Some (Ok (peak_value Zgtb 0%Z (to_list d)), w).
Proof.
  unfold peak_or_zeroZ, truthy, peak_value, to_list, lift.
  destruct (items d); reflexivity.
Qed.

(** [save_metrics] in full: it raises only what reading the process name
    or opening the file raises, and otherwise writes [snapshot_of]. *)
Lemma save_metrics_run f c w :
  save_metrics f c w
  = match name_read c (mon w) with
    | Got name =>
        if open_ok c
        then Some (Ok tt,
                   mkWorld (mon w)
                     (out w ++ [Dumped f (snapshot_of name (mon w));
                                Printed (SavedTo f)]))
        else Some (Raise OSError, w)
    | Failed e => Some (Raise (Psutil e), w)
    | Interrupted => Some (Raise KeyboardInterrupt, w)
    end.
Proof.
  unfold save_metrics, name_read, bind at 1, get_self at 1.
  unfold bind at 1.
  assert (E : (match process (mon w) with
               | Some _ => read (read_name c)
               | None => ret "unknown"%string
               end) w
              = match (match process (mon w) with
                       | Some _ => read_name c
                       | None => Got "unknown"%string
                       end) with
                | Got name => Some (Ok name, w)
                | Failed e => Some (Raise (Psutil e), w)
                | Interrupted => Some (Raise KeyboardInterrupt, w)
                end).
  { destruct (process (mon w)); [destruct (read_name c) |]; reflexivity. }
  rewrite E. clear E.
  destruct (match process (mon w) with
            | Some _ => read_name c
            | None => Got "unknown"%string
            end) as [name | e |]; try reflexivity.
  unfold bind at 1. rewrite average_or_zero_run.
  unfold bind at 1. rewrite peak_or_zero_run.
  unfold bind at 1. rewrite average_or_zero_run.
  unfold bind at 1. rewrite peak_or_zero_run.
  unfold bind at 1. rewrite average_or_zeroZ_run.
  unfold bind at 1. rewrite peak_or_zeroZ_run.
  unfold bind at 1, _get_threshold_violations, bind at 1, get_self, ret.
  unfold bind, emit, print, emit, raise.
  destruct (open_ok c); simpl; [| reflexivity].
  rewrite <- app_assoc. reflexivity.
Qed.

Lemma max_from_step {A} (gt : A -> A -> bool) x y ys :
  max_from gt x (y :: ys) = max_from gt (if gt y x then y else x) ys.
Proof. reflexivity. Qed.

(** [max] on floats returns an item of the list that no item exceeds. *)
Lemma max_from_upper x xs :
  Forall (fun y => y <= max_from Qgtb x xs) (x :: xs).
Proof.
  revert x. induction xs as [| y ys IH]; intros x.
  - constructor; [apply Qle_refl | constructor].
  - rewrite max_from_step.
    specialize (IH (if Qgtb y x then y else x)).
    inversion IH as [| b l Hb Hl]; subst.
    assert (Hx : x <= (if Qgtb y x then y else x)).
    { destruct (Qgtb y x) eqn:E; [| apply Qle_refl].
      apply Qlt_le_weak, Qgtb_lt, E. }
    assert (Hy : y <= (if Qgtb y x then y else x)).
    { destruct (Qgtb y x) eqn:E; [apply Qle_refl |].
      unfold Qgtb in E. apply negb_false_iff in E.
      apply Qle_bool_iff, E. }
    constructor; [eapply Qle_trans; eauto |].
    constructor; [eapply Qle_trans; eauto | exact Hl].
Qed.

Lemma max_from_in {A} (gt : A -> A -> bool) x xs :
  In (max_from gt x xs) (x :: xs).
Proof.
  revert x. induction xs as [| y ys IH]; intros x.
  - left. reflexivity.
  - rewrite max_from_step.
    destruct (IH (if gt y x then y else x)) as [E | Hin].
    + rewrite <- E. destruct (gt y x); simpl; auto.
    + right. right. exact Hin.
Qed.

(** C7. In the snapshot that [save_metrics] writes for a monitor with a
    non-empty cpu history, the stored average is the arithmetic mean of the
    stored history, and the stored peak is the maximum of the stored
    history: an item of it that no item exceeds. *)
Theorem C7_saved_average_is_mean_of_saved_history
  (f : string) (c : Closing) (w : World) (name : string) :
  name_read c (mon w) = Got name ->
  open_ok c = true ->
  to_list (cpu_history (mon w)) <> [] ->
  exists data,
    save_metrics f c w
    = Some (Ok tt,
            mkWorld (mon w) (out w ++ [Dumped f data; Printed (SavedTo f)])) /\
    history (metrics_cpu data) = to_list (cpu_history (mon w)) /\
    average (metrics_cpu data) = mean (history (metrics_cpu data)) /\
    Py.max Qgtb (history (metrics_cpu data)) = Ok (peak (metrics_cpu data)) /\
    In (peak (metrics_cpu data)) (history (metrics_cpu data)) /\
    Forall (fun x => x <= peak (metrics_cpu data)) (history (metrics_cpu data)).
Proof.
  intros Hname Hopen Hne.
  exists (snapshot_of name (mon w)).
  rewrite save_metrics_run, Hname, Hopen. simpl.
  destruct (to_list (cpu_history (mon w))) as [| x xs]; [congruence |].
  simpl. repeat split.
  - apply max_from_in.
  - apply max_from_upper.
Qed.

(** The snapshot of a monitor that recorded the cpu percentages 10 and
    30. *)
Lemma C7_saved_average_witness :
  exists data,
    save_metrics "m.json" closing_ok two_samples
    = Some (Ok tt,
            mkWorld (mon two_samples)
              (out two_samples
                 ++ [Dumped "m.json" data; Printed (SavedTo "m.json")])) /\
    history (metrics_cpu data) = to_list (cpu_history (mon two_samples)) /\
    average (metrics_cpu data) = mean (history (metrics_cpu data)) /\
    Py.max Qgtb (history (metrics_cpu data)) = Ok (peak (metrics_cpu data)) /\
    In (peak (metrics_cpu data)) (history (metrics_cpu data)) /\
    Forall (fun x => x <= peak (metrics_cpu data)) (history (metrics_cpu data)).
Proof.
  apply (C7_saved_average_is_mean_of_saved_history "m.json" closing_ok
           two_samples "rusty-audio").
  - reflexivity.
  - reflexivity.
  - vm_compute. discriminate.
Defined.

(** C2 (as stated).  With empty histories [save_metrics] raises nothing
    and stores 0 as the average and as the peak of each metric: no error
    is signalled for the empty history. *)
Lemma C2_empty_history_is_saved_as_zero :
  to_list (cpu_history (mon (started (Some 7%Z) 100 7))) = [] /\
  exists data,
    save_metrics "performance_metrics.json" closing_ok (started (Some 7%Z) 100 7)
    = Some (Ok tt,
            mkWorld (mon (started (Some 7%Z) 100 7))
              [Dumped "performance_metrics.json" data;
               Printed (SavedTo "performance_metrics.json")]) /\
    average (metrics_cpu data) = 0 /\ peak (metrics_cpu data) = 0 /\
    average (metrics_memory data) = 0 /\ peak (metrics_memory data) = 0 /\
    average (metrics_threads data) = 0 /\ peak (metrics_threads data) = 0%Z.
Proof.
  split; [reflexivity |].
  exists (snapshot_of "rusty-audio" (mon (started (Some 7%Z) 100 7))).
  rewrite save_metrics_run. repeat split.
Qed.

(** C2 (amended).  Whenever the process name can be read and the file
    opened, [save_metrics] raises nothing, whatever the histories hold, and
    for each metric whose history is empty the snapshot it writes stores
    the average 0 and the peak 0. *)
Theorem C2_save_metrics_stores_zero_for_empty_history
  (f : string) (c : Closing) (w : World) (name : string) :
  name_read c (mon w) = Got name ->
  open_ok c = true ->
  exists data,
    save_metrics f c w
    = Some (Ok tt,
            mkWorld (mon w) (out w ++ [Dumped f data; Printed (SavedTo f)])) /\
    history (metrics_cpu data) = to_list (cpu_history (mon w)) /\
    history (metrics_memory data) = to_list (memory_history (mon w)) /\
    history (metrics_threads data) = to_list (thread_count_history (mon w)) /\
    match history (metrics_cpu data) with
    | [] => average (metrics_cpu data) = 0 /\ peak (metrics_cpu data) = 0
    | _ :: _ => True
    end /\
    match history (metrics_memory data) with
    | [] => average (metrics_memory data) = 0 /\ peak (metrics_memory data) = 0
    | _ :: _ => True
    end /\
    match history (metrics_threads data) with
    | [] => average (metrics_threads data) = 0 /\ peak (metrics_threads data) = 0%Z
    | _ :: _ => True
    end.
Proof.
  intros Hname Hopen.
  exists (snapshot_of name (mon w)).
  rewrite save_metrics_run, Hname, Hopen. simpl.
  repeat split.
  - destruct (to_list (cpu_history (mon w))); simpl; auto.
  - destruct (to_list (memory_history (mon w))); simpl; auto.
  - destruct (to_list (thread_count_history (mon w))); simpl; auto.
Qed.

(** The snapshot of a monitor that recorded nothing. *)
Lemma C2_save_metrics_witness :
  exists data,
    save_metrics "m.json" closing_ok (started (Some 7%Z) 100 7)
    = Some (Ok tt,
            mkWorld (mon (started (Some 7%Z) 100 7))
              (out (started (Some 7%Z) 100 7)
                 ++ [Dumped "m.json" data; Printed (SavedTo "m.json")])) /\
    average (metrics_cpu data) = 0 /\ peak (metrics_cpu data) = 0.
Proof.
  destruct (C2_save_metrics_stores_zero_for_empty_history "m.json" closing_ok
              (started (Some 7%Z) 100 7) "rusty-audio" eq_refl eq_refl)
    as (data & E & Hc & _ & _ & Hz & _).
  exists data. split; [exact E |].
  rewrite Hc in Hz. exact Hz.
Defined.

(** [save_metrics] never raises a numeric exception. *)
Lemma save_metrics_raises_nothing_numeric f c w r w' :
  save_metrics f c w = Some (r, w') ->
  r <> Raise ZeroDivisionError /\ r <> Raise ValueError.
Proof.
  rewrite save_metrics_run.
  destruct (name_read c (mon w)); [destruct (open_ok c) | |];
    intros E; injection E as <- _; split; discriminate.
Qed.

(** C3.  A run whose first tick is interrupted from the keyboard records
    no sample.  The [finally] clause writes the snapshot, with a count of 0
    and empty histories, prints the header of the summary and then raises
    [ZeroDivisionError] on [sum(...) / len(...)]: the program ends with
    that exception. *)
Theorem C3_empty_run_raises_after_saving :
  outcome (main default_args env_interrupted_at_once)
  = Some (Raise ZeroDivisionError) /\
  exists data,
    trace (main default_args env_interrupted_at_once)
    = [Printed (FoundProcess 7);
       Printed StoppedByUser;
       Dumped "performance_metrics.json" data;
       Printed (SavedTo "performance_metrics.json");
       Printed SummaryHeader] /\
    monitoring_duration data = 0%Z /\
    history (metrics_cpu data) = [] /\
    average (metrics_cpu data) = 0.
Proof.
  split; [reflexivity |].
  eexists. split; [reflexivity |]. repeat split.
Qed.

(** ** Violation counters *)

Lemma count_if_from {A} (p : A -> bool) xs acc :
  fold_left (fun a x => if p x then (a + 1)%Z else a) xs acc
  = (acc + len (filter p xs))%Z.
Proof.
  revert acc. induction xs as [| x xs IH]; intros acc; simpl.
  - unfold len. simpl. lia.
  - rewrite IH. destruct (p x); unfold len; simpl length; lia.
Qed.

Lemma count_if_filter {A} (p : A -> bool) xs :
  count_if p xs = len (filter p xs).
Proof. unfold count_if. rewrite count_if_from. lia. Qed.

(** C5. [_get_threshold_violations] reads the histories as they are when
    it is called and changes nothing: each counter is the number of items
    of the history that are strictly greater than the threshold.  With the
    cpu threshold 25 and the recorded cpu samples 10, 30, 5, 40, the items
    at indices 1 and 3 are the ones over the threshold and [cpu_exceeded]
    is 2. *)
Theorem C5_violation_counters_recount_history (w : World) :
  (exists v,
     _get_threshold_violations w = Some (Ok v, w) /\
     cpu_exceeded v
     = len (filter (fun cpu => Qgtb cpu (th_cpu_percent (thresholds (mon w))))
              (to_list (cpu_history (mon w)))) /\
     memory_exceeded v
     = len (filter (fun mem => Qgtb mem (th_memory_mb (thresholds (mon w))))
              (to_list (memory_history (mon w)))) /\
     thread_exceeded v
     = len (filter (fun tc => Zgtb tc (th_thread_count (thresholds (mon w))))
              (to_list (thread_count_history (mon w))))) /\
  th_cpu_percent (thresholds (mon four_samples)) = 25 /\
  to_list (cpu_history (mon four_samples)) = [10; 30; 5; 40] /\
  map (fun cpu => Qgtb cpu 25) (to_list (cpu_history (mon four_samples)))
  = [false; true; false; true] /\
  exists v,
    _get_threshold_violations four_samples = Some (Ok v, four_samples) /\
    cpu_exceeded v = 2%Z.
Proof.
  split.
  - eexists. split.
    + unfold _get_threshold_violations, bind, get_self, ret. reflexivity.
    + simpl. rewrite !count_if_filter. repeat split.
  - split; [vm_compute; reflexivity |].
    split; [vm_compute; reflexivity |].
    split; [vm_compute; reflexivity |].
    eexists. split; vm_compute; reflexivity.
Qed.

(** ** The status line *)

(** C6 (as stated).  With two samples in the histories, [print_metrics]
    prints the time stamp and the current values and no line of
    averages. *)
Lemma C6_no_averages_with_two_samples :
  len (to_list (cpu_history (mon two_samples))) = 2%Z /\
  print_metrics (Some metrics_cpu5) two_samples
  = Some (Ok tt,
          mkWorld (mon two_samples)
            (out two_samples
               ++ [Printed (Stamp (timestamp metrics_cpu5));
                   Printed (Current (cpu_percent metrics_cpu5)
                              (memory_mb metrics_cpu5)
                              (memory_percent metrics_cpu5)
                              (thread_count metrics_cpu5)
                              (handle_count metrics_cpu5))])).
Proof. split; vm_compute; reflexivity. Qed.

Lemma len_last_n {A} (xs : list A) : len (last_n 10 xs) = min10 (len xs).
Proof. unfold len, min10. rewrite last_n_length. lia. Qed.

Lemma min10_len_nonzero {A} (x : A) xs : Z.eqb (min10 (len (x :: xs))) 0 = false.
Proof. unfold min10, len. simpl length. apply Z.eqb_neq. lia. Qed.

(** C6 (amended).  [print_metrics] on a sample prints the time stamp and
    the current values, and raises nothing.  It adds the line of averages
    exactly when the cpu history holds at least 10 items; the averages are
    then the sums of the last 10 items of the cpu and of the memory history
    divided by 10.  With fewer than 10 items the line of averages is left
    out.  The text panel of the live chart, drawn by [animate] after a
    sample was recorded, does show averages over what is there: the mean
    of the last 10 items of each history, and of all items when there are
    fewer than 10. *)
Theorem C6_averages_only_from_ten_samples (m : Metrics) (q : Probe) (w : World) :
  print_metrics (Some m) w
  = Some (Ok tt,
          mkWorld (mon w)
            (out w
               ++ [Printed (Stamp (timestamp m));
                   Printed (Current (cpu_percent m) (memory_mb m)
                              (memory_percent m) (thread_count m)
                              (handle_count m))]
               ++ if Nat.leb 10 (length (to_list (cpu_history (mon w))))
                  then [Printed
                          (Average10
                             (Py.sum (last_n 10 (to_list (cpu_history (mon w))))
                              / inject_Z 10)
                             (Py.sum (last_n 10 (to_list (memory_history (mon w))))
                              / inject_Z 10))]
                  else [])) /\
  animate q w
  = match collect_metrics q w with
    | Some (Ok (Some s), w1) =>
        match to_list (cpu_history (mon w1)), to_list (memory_history (mon w1)) with
        | _ :: _, _ :: _ =>
            Some (Ok tt,
                  mkWorld (mon w1)
                    (out w1
                       ++ [Drawn (mkPanel (cpu_percent s) (memory_mb s)
                                    (thread_count s) (handle_count s)
                                    (mean (last_n 10 (to_list (cpu_history (mon w1)))))
                                    (mean (last_n 10
                                             (to_list (memory_history (mon w1))))))]))
        | _, _ => Some (Raise ZeroDivisionError, w1)
        end
    | Some (Ok None, w1) => Some (Ok tt, w1)
    | Some (Raise e, w1) => Some (Raise e, w1)
    | None => None
    end.
Proof.
  split.
  - unfold print_metrics, bind, print, emit, get_self, dlen, len, to_list.
    cbn [mon out].
    destruct (Nat.leb 10 (length (items (cpu_history (mon w))))) eqn:E.
    + apply Nat.leb_le in E.
      replace (Z.leb 10 (Z.of_nat (length (items (cpu_history (mon w))))))
        with true by (symmetry; apply Z.leb_le; lia).
      unfold lift, truediv. cbn [Z.eqb mon out].
      rewrite <- !app_assoc. reflexivity.
    + apply Nat.leb_gt in E.
      replace (Z.leb 10 (Z.of_nat (length (items (cpu_history (mon w))))))
        with false by (symmetry; apply Z.leb_gt; lia).
      unfold ret. rewrite <- !app_assoc. reflexivity.
  - unfold animate. unfold bind at 1.
    destruct (collect_metrics q w) as [[[[s |] | e] w1] |]; try reflexivity.
    unfold bind, get_self, lift, truediv, emit, mean, dlen, to_list.
    rewrite !len_last_n.
    destruct (items (cpu_history (mon w1))) as [| c cs]; [reflexivity |].
    rewrite min10_len_nonzero.
    destruct (items (memory_history (mon w1))) as [| b bs]; [reflexivity |].
    rewrite min10_len_nonzero. reflexivity.
Qed.

(** ** The end of a run *)

Lemma extends_ret {A} (a : A) : extends (ret a).
Proof. intros w r w' E. injection E as _ <-. exists []. now rewrite app_nil_r. Qed.

Lemma extends_lift {A} (x : Res A) : extends (lift x).
Proof. intros w r w' E. injection E as _ <-. exists []. now rewrite app_nil_r. Qed.

Lemma extends_get_self : extends get_self.
Proof. intros w r w' E. injection E as _ <-. exists []. now rewrite app_nil_r. Qed.

Lemma extends_print l : extends (print l).
Proof. intros w r w' E. injection E as _ <-. simpl. eauto. Qed.

Lemma extends_bind {A B} (c : M A) (k : A -> M B) :
  extends c -> (forall a, extends (k a)) -> extends (bind c k).
Proof.
  intros Hc Hk w r w' E. unfold bind in E.
  destruct (c w) as [[[a | e] w1] |] eqn:Ec; [| | discriminate].
  - destruct (Hc _ _ _ Ec) as [p1 E1].
    destruct (Hk a _ _ _ E) as [p2 E2].
    exists (p1 ++ p2). rewrite E2, E1, app_assoc. reflexivity.
  - injection E as _ <-. exact (Hc _ _ _ Ec).
Qed.

Create HintDb trace_grows.
#[local] Hint Resolve extends_ret extends_lift extends_get_self extends_print
  : trace_grows.

Ltac trace_grows :=
  repeat (apply extends_bind; [| intros ?]); auto with trace_grows.

(** The [finally] clause of [main] when the name can be read and the file
    written: it always comes back, and what it adds to the trace begins
    with the snapshot, the notice that it was saved and the header of the
    summary. *)
Lemma finalize_run args c w name :
  name_read c (mon w) = Got name ->
  open_ok c = true ->
  exists r w' post,
    finalize args c w = Some (r, w') /\
    out w'
    = out w ++ [Dumped (arg_output args) (snapshot_of name (mon w));
                Printed (SavedTo (arg_output args));
                Printed SummaryHeader] ++ post.
Proof.
  intros Hname Hopen.
  unfold finalize. unfold bind at 1.
  rewrite save_metrics_run, Hname, Hopen.
  unfold bind at 1. unfold _get_threshold_violations at 1, bind at 1, get_self at 1.
  unfold ret at 1. unfold bind at 1. unfold print at 1, emit at 1.
  cbn [mon out].
  match goal with
  | |- exists r w' post, ?c ?w0 = _ /\ _ =>
      assert (Hext : extends c) by trace_grows;
      destruct (c w0) as [[r w'] |] eqn:E
  end.
  - destruct (Hext _ _ _ E) as [post Hpost].
    exists r, w', post. split; [reflexivity |].
    rewrite Hpost. cbn [out]. rewrite <- !app_assoc. reflexivity.
  - exfalso. revert E.
    unfold bind, get_self, lift, print, emit.
    repeat match goal with
           | |- context [match ?x with _ => _ end] => destruct x
           end; discriminate.
Qed.

(** C8 (as stated).  With [--plot] and matplotlib present, the program
    shows the chart and returns when the window is closed: the run ends
    normally and no snapshot was written. *)
Lemma C8_plot_run_ends_without_saving :
  outcome (main args_plot env_two_frames) = Some (Ok tt) /\
  dumps (trace (main args_plot env_two_frames)) = [].
Proof. split; vm_compute; reflexivity. Qed.

(** C8 (amended).  Without [--benchmark] and without the live chart, once
    the monitor has been constructed, every way in which the program ends
    (the duration elapsed, an interrupt from the keyboard, the loss of the
    process through [sys.exit(1)], or any other exception of the loop)
    goes through the [finally] clause: when the process name can be read
    and the file written, the trace of the run contains the snapshot
    written to [--output], the notice that it was saved and the header of
    the printed summary, in this order. *)
Theorem C8_console_run_always_finalizes
  (args : Args) (env : Env) (w1 : World) (name : string)
  (r : Res unit) (w' : World) :
  arg_benchmark args = false ->
  arg_plot args && has_matplotlib env = false ->
  __init__ (arg_pid args) 100 (startup env) (mkWorld (fresh None 100) [])
  = Some (Ok tt, w1) ->
  read_name (closing env) = Got name ->
  open_ok (closing env) = true ->
  main args env = Some (r, w') ->
  exists data pre post,
    out w'
    = pre ++ [Dumped (arg_output args) data;
              Printed (SavedTo (arg_output args));
              Printed SummaryHeader] ++ post.
Proof.
  intros Hbench Hplot Hinit Hname Hopen Hmain.
  unfold main, main_body in Hmain. rewrite Hbench in Hmain.
  unfold bind in Hmain. rewrite Hinit, Hplot in Hmain.
  unfold console_run, try_finally in Hmain.
  destruct (try_except_KeyboardInterrupt _ _ w1) as [[r0 w2] |];
    [| discriminate].
  assert (Hn : exists name', name_read (closing env) (mon w2) = Got name').
  { unfold name_read. destruct (process (mon w2)); eauto. }
  destruct Hn as [name' Hn].
  destruct (finalize_run args (closing env) w2 name' Hn Hopen)
    as (rf & w3 & post & Ef & Hout).
  rewrite Ef in Hmain.
  exists (snapshot_of name' (mon w2)), (out w2), post.
  destruct rf as [[] | e]; injection Hmain as _ <-; exact Hout.
Qed.

(** A run in which the process is lost at the second tick: the program
    leaves through [sys.exit(1)] after the snapshot was written. *)
Lemma C8_console_run_witness :
  outcome (main default_args env_process_lost) = Some (Raise (SystemExit 1)) /\
  exists data pre post,
    trace (main default_args env_process_lost)
    = pre ++ [Dumped "performance_metrics.json" data;
              Printed (SavedTo "performance_metrics.json");
              Printed SummaryHeader] ++ post.
Proof.
  split; [vm_compute; reflexivity |].
  destruct (main default_args env_process_lost) as [[r w'] |] eqn:E;
    [| vm_compute in E; discriminate].
  simpl trace.
  refine (C8_console_run_always_finalizes default_args env_process_lost
            _ "rusty-audio" r w' _ _ _ _ _ E).
  - reflexivity.
  - reflexivity.
  - vm_compute. reflexivity.
  - reflexivity.
  - reflexivity.
Defined.

(** The two other ways of ending, on sample runs. *)
Example interrupted_run_saves :
  outcome (main default_args env_interrupted) = Some (Ok tt) /\
  length (dumps (trace (main default_args env_interrupted))) = 1%nat.
Proof. split; vm_compute; reflexivity. Qed.

Example duration_run_saves :
  outcome (main (args_duration 5) env_duration) = Some (Ok tt) /\
  length (dumps (trace (main (args_duration 5) env_duration))) = 1%nat.
Proof. split; vm_compute; reflexivity. Qed.

Lemma print_metrics_returns x w : print_metrics x w <> None.
Proof.
  destruct x as [m |]; [| discriminate].
  unfold print_metrics, bind, print, emit, get_self, lift, truediv. cbn [mon out].
  destruct (Z.leb _ _); discriminate.
Qed.

Lemma collect_metrics_interrupted p w r w' :
  read_cpu_percent p = Interrupted ->
  collect_metrics p w = Some (r, w') ->
  exists e, r = Raise e.
Proof.
  intros Hi E.
  destruct (collect_metrics_spec p w) as (r0 & w0 & E0 & _ & Hr).
  rewrite E in E0. injection E0 as <- <-.
  destruct r as [[m |] | e]; [| | eauto].
  - destruct Hr as [_ Hr]. unfold reads in Hr. rewrite Hi in Hr. discriminate.
  - destruct Hr as [_ Hr]. unfold failure in Hr. rewrite Hi in Hr. congruence.
Qed.

(** The console loop comes to an end on every script whose last tick
    [stops]. *)
Lemma monitor_loop_ends args start_time script t w :
  stops args start_time t = true ->
  monitor_loop args start_time (script ++ [t]) w <> None.
Proof.
  intros Hstop. revert w.
  induction script as [| u rest IH]; intros w; simpl; unfold bind.
  - destruct (collect_metrics_spec (probe t) w) as (r & w1 & E & _).
    rewrite E. destruct r as [m | e]; [| discriminate].
    pose proof (print_metrics_returns m w1) as Hp.
    destruct (print_metrics m w1) as [[[[] | e] w2] |];
      [| discriminate | congruence].
    unfold stops in Hstop.
    destruct (Z.ltb 0 (arg_duration args)
              && Qle_bool (inject_Z (arg_duration args))
                   (clock_after t - start_time)); [discriminate |].
    rewrite orb_false_r in Hstop.
    unfold sleep.
    destruct (Qgtb 0 (arg_interval args)); [discriminate |].
    destruct (sleep_interrupted t); [discriminate |].
    simpl in Hstop.
    destruct (read_cpu_percent (probe t)) eqn:Hc; try discriminate.
    destruct (collect_metrics_interrupted _ _ _ _ Hc E) as [e He].
    discriminate.
  - destruct (collect_metrics_spec (probe u) w) as (r & w1 & E & _).
    rewrite E. destruct r as [m | e]; [| discriminate].
    pose proof (print_metrics_returns m w1) as Hp.
    destruct (print_metrics m w1) as [[[[] | e] w2] |];
      [| discriminate | congruence].
    destruct (Z.ltb 0 (arg_duration args)
              && Qle_bool (inject_Z (arg_duration args))
                   (clock_after u - start_time)); [discriminate |].
    unfold sleep.
    destruct (Qgtb 0 (arg_interval args)); [discriminate |].
    destruct (sleep_interrupted u); [discriminate |].
    simpl. apply IH.
Qed.

Lemma returns_ret {A} (a : A) : returns (ret a).
Proof. intros w. discriminate. Qed.

Lemma returns_lift {A} (x : Res A) : returns (lift x).
Proof. intros w. discriminate. Qed.

Lemma returns_get_self : returns get_self.
Proof. intros w. discriminate. Qed.

Lemma returns_print l : returns (print l).
Proof. intros w. discriminate. Qed.

Lemma returns_bind {A B} (c : M A) (k : A -> M B) :
  returns c -> (forall a, returns (k a)) -> returns (bind c k).
Proof.
  intros Hc Hk w. unfold bind.
  specialize (Hc w). destruct (c w) as [[[a | e] w1] |].
  - apply Hk.
  - discriminate.
  - congruence.
Qed.

Lemma returns_save_metrics f c : returns (save_metrics f c).
Proof.
  intros w. rewrite save_metrics_run.
  destruct (name_read c (mon w)); [destruct (open_ok c) | |]; discriminate.
Qed.

#[local] Hint Resolve returns_ret returns_lift returns_get_self returns_print
  returns_save_metrics : trace_grows.

Lemma finalize_returns args c : returns (finalize args c).
Proof.
  unfold finalize.
  apply returns_bind; [apply returns_save_metrics | intros _].
  unfold _get_threshold_violations.
  repeat (apply returns_bind; [| intros ?]); auto with trace_grows.
Qed.

Lemma try_except_KeyboardInterrupt_returns body handler w :
  body w <> None -> returns handler ->
  try_except_KeyboardInterrupt body handler w <> None.
Proof.
  intros Hb Hh. unfold try_except_KeyboardInterrupt.
  destruct (body w) as [[[[] | []] w1] |]; try discriminate.
  - apply Hh.
  - congruence.
Qed.

Lemma try_finally_returns {A} (body : M A) final w :
  body w <> None -> returns final -> try_finally body final w <> None.
Proof.
  intros Hb Hf. unfold try_finally.
  destruct (body w) as [[r w1] |]; [| congruence].
  specialize (Hf w1).
  destruct (final w1) as [[[[] | e] w2] |]; [discriminate | discriminate | congruence].
Qed.

(** So the whole [try] statement comes to an end on such a script,
    whatever the [finally] clause meets. *)
Lemma console_run_ends args env script t w :
  ticks env = script ++ [t] ->
  stops args (start_clock env) t = true ->
  console_run args env w <> None.
Proof.
  intros Hticks Hstop. unfold console_run.
  apply try_finally_returns; [| apply finalize_returns].
  apply try_except_KeyboardInterrupt_returns; [| apply returns_print].
  rewrite Hticks. apply monitor_loop_ends. exact Hstop.
Qed.

(** ** Sample runs *)

(** A monitor of capacity 3 that recorded 1, 2, 3, 4, 5 holds 3, 4, 5. *)
Example capacity_three_keeps_last_three :
  to_list (cpu_history
             (mon (snd (collect_all (map probe_with_cpu [1; 2; 3; 4; 5])
                          (started (Some 7%Z) 3 7)))))
  = [3; 4; 5].
Proof. vm_compute. reflexivity. Qed.

(** A deque of capacity 0 stays empty. *)
Example capacity_zero_keeps_nothing :
  to_list (append (append (deque_new 0) 1) 2) = [].
Proof. reflexivity. Qed.

(** A denied tick between two samples records nothing and the run goes
    on. *)
Example denied_tick_is_skipped :
  to_list (cpu_history
             (mon (snd (collect_all
                          [probe_with_cpu 10; denied_probe; probe_with_cpu 30]
                          (started (Some 7%Z) 100 7)))))
  = [10; 30].
Proof. vm_compute. reflexivity. Qed.

(** The warnings of the four-sample run: the cpu percentages 30 and 40. *)
Example four_samples_warnings :
  out four_samples = [Printed (HighCpu 30 25); Printed (HighCpu 40 25)].
Proof. vm_compute. reflexivity. Qed.

(** No process to monitor at startup: the program leaves through
    [sys.exit(1)] before the [try] statement, and nothing is saved. *)
Example startup_without_process_exits :
  main default_args
    (mkEnv true
       (mkFinder false [mkProc 3 (Value "bash"%string) (Value ["-bash"%string])])
       1000 [] [] closing_ok 99 ""%string)
  = Some (Raise (SystemExit 1),
          mkWorld (fresh None 100)
            [Printed ErrCouldNotFind; Printed HintStartOrPid]).
Proof. vm_compute. reflexivity. Qed.

(** * Further properties of the code *)

(** ** Recognising the process *)

Lemma starts_with_app s a b :
  starts_with s (a ++ b)%string = true -> starts_with s a = true.
Proof.
  revert s. induction a as [| c a IH]; intros s H.
  - destruct s; reflexivity.
  - destruct s as [| d s]; simpl in *; [discriminate |].
    apply andb_true_iff in H. destruct H as [Hc Hs].
    rewrite Hc. simpl. apply IH. exact Hs.
Qed.

Lemma contains_nil needle :
  contains needle EmptyString = starts_with EmptyString needle.
Proof. unfold contains. apply orb_false_r. Qed.

Lemma contains_cons needle c hay :
  contains needle (String c hay)
  = starts_with (String c hay) needle || contains needle hay.
Proof. reflexivity. Qed.

Lemma contains_app a b hay :
  contains (a ++ b)%string hay = true -> contains a hay = true.
Proof.
  induction hay as [| c hay IH]; intros H.
  - rewrite contains_nil in *. eapply starts_with_app. exact H.
  - rewrite contains_cons in *.
    apply orb_true_iff in H. apply orb_true_iff. destruct H as [H | H].
    + left. eapply starts_with_app. exact H.
    + right. apply IH. exact H.
Qed.

(** [_is_rusty_audio_process] raises on an entry whose name or command
    line is [None], and otherwise answers whether the lower-cased name
    contains "rusty" or the lower-cased command line contains
    "rusty-audio"; its third test, for "rusty_audio" in the name, never
    changes the answer. *)
Theorem is_rusty_audio_process_answer (proc : Proc) :
  _is_rusty_audio_process proc
  = match get_default (info_name proc) EmptyString,
          get_default (info_cmdline proc) [] with
    | None, _ => Fails NoneHasNoLower
    | Some _, None => Fails CannotJoinNone
    | Some n, Some l =>
        Says (contains "rusty" (lower n)
              || contains "rusty-audio" (lower (join " " l)))
    end.
Proof.
  unfold _is_rusty_audio_process.
  destruct (get_default (info_name proc) EmptyString) as [n |]; [| reflexivity].
  destruct (get_default (info_cmdline proc) []) as [l |]; [| reflexivity].
  f_equal.
  destruct (contains "rusty_audio" (lower n)) eqn:E.
  - rewrite (contains_app "rusty" "_audio" (lower n) E). reflexivity.
  - rewrite orb_false_r. reflexivity.
Qed.

(** ** Finding the process *)

Lemma scan_processes_first procs w :
  scan_processes procs w
  = match find decisive procs with
    | None => Some (Ok tt, w)
    | Some proc =>
        match _is_rusty_audio_process proc with
        | Says _ =>
            Some (Ok tt,
                  mkWorld (set_pid (Some (proc_pid proc))
                             (set_process (Some (proc_pid proc)) (mon w)))
                    (out w ++ [Printed (FoundProcess (proc_pid proc))]))
        | Fails e => Some (Raise (exc_of e), w)
        end
    end.
Proof.
  induction procs as [| proc rest IH]; simpl.
  - reflexivity.
  - unfold bind at 1. unfold decisive at 1.
    destruct (_is_rusty_audio_process proc) as [[] | e] eqn:E.
    + rewrite E. reflexivity.
    + exact IH.
    + rewrite E. reflexivity.
Qed.

(** Without a usable pid ([None] or 0), [_find_process] calls the
    recogniser on the processes of the table in order, up to the first on
    which it does not answer "no".  If it accepts that process,
    [_find_process] stores it as handle and as pid and announces it; if it
    raises there, [_find_process] ends with that exception and the monitor
    as it was.  When the recogniser answers "no" on the whole table and
    the monitor has no handle, [_find_process] prints the two lines of the
    error and leaves through [sys.exit(1)]. *)
Theorem find_process_takes_first_match (f : Finder) (w : World) :
  truthy_pid (pid (mon w)) = None ->
  _find_process f w
  = match find decisive (process_iter f) with
    | Some proc =>
        match _is_rusty_audio_process proc with
        | Says _ =>
            Some (Ok tt,
                  mkWorld (set_pid (Some (proc_pid proc))
                             (set_process (Some (proc_pid proc)) (mon w)))
                    (out w ++ [Printed (FoundProcess (proc_pid proc))]))
        | Fails e => Some (Raise (exc_of e), w)
        end
    | None =>
        match process (mon w) with
        | Some _ => Some (Ok tt, w)
        | None =>
            Some (Raise (SystemExit 1),
                  mkWorld (mon w)
                    (out w ++ [Printed ErrCouldNotFind; Printed HintStartOrPid]))
        end
    end.
Proof.
  intros Hpid. unfold _find_process, bind at 1, get_self at 1.
  rewrite Hpid. unfold bind at 1. rewrite scan_processes_first.
  destruct (find decisive (process_iter f)) as [proc |].
  - destruct (_is_rusty_audio_process proc); reflexivity.
  - unfold bind, get_self, print, emit, raise.
    destruct (process (mon w)); [reflexivity |].
    simpl. rewrite <- app_assoc. reflexivity.
Qed.

(** On the sample table the editor is taken, pid 5: its command line
    names a file under Rusty-Audio. *)
Lemma find_process_takes_first_match_witness :
  _find_process (mkFinder false sample_table)
    (mkWorld (fresh (Some 0%Z) 100) [])
  = Some (Ok tt,
          mkWorld (set_pid (Some 5%Z) (set_process (Some 5%Z) (fresh (Some 0%Z) 100)))
            [Printed (FoundProcess 5)]).
Proof.
  exact (find_process_takes_first_match (mkFinder false sample_table)
           (mkWorld (fresh (Some 0%Z) 100) []) eq_refl).
Defined.

(** A process whose command line could not be read, ahead of the player
    in the table, ends the search with [TypeError]. *)
Example unreadable_cmdline_ends_the_search :
  _find_process
    (mkFinder false
       [mkProc 1 (Value "systemd"%string) IsNone;
        mkProc 7 (Value "rusty-audio"%string) (Value [])])
    (mkWorld (fresh None 100) [])
  = Some (Raise TypeError, mkWorld (fresh None 100) []).
Proof. reflexivity. Qed.


(** ** What sampling keeps *)

Lemma kept_refl m : kept m m.
Proof. unfold kept. auto. Qed.

Lemma kept_trans a b c : kept a b -> kept b c -> kept a c.
Proof.
  unfold kept. intros (H1 & H2 & H3) (K1 & K2 & K3).
  repeat split; [auto | congruence | congruence].
Qed.

Lemma scan_processes_kept procs w r w' :
  scan_processes procs w = Some (r, w') -> kept (mon w) (mon w').
Proof.
  rewrite scan_processes_first.
  destruct (find decisive procs) as [proc |].
  - destruct (_is_rusty_audio_process proc); intros E; injection E as _ <-.
    + unfold kept. simpl. repeat split; auto. discriminate.
    + apply kept_refl.
  - intros E. injection E as _ <-. apply kept_refl.
Qed.

Lemma find_process_kept f w r w' :
  _find_process f w = Some (r, w') -> kept (mon w) (mon w').
Proof.
  unfold _find_process, bind at 1, get_self at 1.
  destruct (truthy_pid (pid (mon w))) as [p |].
  - destruct (pid_exists f); simpl; intros E; injection E as _ <-;
      unfold kept; simpl; repeat split; auto; discriminate.
  - unfold bind at 1.
    destruct (scan_processes (process_iter f) w) as [[[[] | e] w1] |] eqn:E1;
      [| | discriminate].
    + apply scan_processes_kept in E1. unfold bind, get_self.
      destruct (process (mon w1)); simpl;
        intros E; injection E as _ <-; exact E1.
    + apply scan_processes_kept in E1.
      intros E. injection E as _ <-. exact E1.
Qed.

(** One call of [collect_metrics] keeps the handle, the untracked fields
    and the thresholds, whatever its outcome. *)
Lemma collect_metrics_kept q w r w' :
  collect_metrics q w = Some (r, w') -> kept (mon w) (mon w').
Proof.
  unfold collect_metrics.
  set (prelude := match process (mon w) with
                  | None => _find_process (finder q)
                  | Some _ => if negb (is_running q)
                              then _find_process (finder q) else ret tt
                  end).
  assert (Hpre : forall r1 w1, prelude w = Some (r1, w1) -> kept (mon w) (mon w1)).
  { subst prelude. intros r1 w1. destruct (process (mon w)).
    - destruct (negb (is_running q)).
      + apply find_process_kept.
      + intros E. injection E as _ <-. apply kept_refl.
    - apply find_process_kept. }
  unfold bind at 1. unfold get_self at 1. fold prelude.
  unfold bind at 1.
  destruct (prelude w) as [[[[] | e] w1] |] eqn:E1; [| | discriminate].
  2:{ intros E. injection E as _ <-. eapply Hpre. reflexivity. }
  specialize (Hpre _ _ eq_refl). intros E. eapply kept_trans; [exact Hpre |].
  revert E. unfold try_except_psutil, bind, get_self.
  destruct (process (mon w1)) eqn:Hp.
  2:{ simpl. intros E. injection E as _ <-. apply kept_refl. }
  destruct (read_cpu_percent q) as [cpu | e | ]; simpl;
    try (intros E; injection E as _ <-; apply kept_refl).
  destruct (read_rss q) as [rss | e | ]; simpl;
    try (intros E; injection E as _ <-; apply kept_refl).
  destruct (io_counters q) as [[rd wr] |];
  (destruct (read_memory_percent q) as [pct | e | ]; simpl;
    try (intros E; injection E as _ <-; apply kept_refl));
  unfold _check_thresholds, bind, get_self; rewrite for_each_print; simpl;
  intros E; injection E as _ <-; unfold kept; simpl;
  (repeat split; auto; rewrite Hp; discriminate).
Qed.

Lemma collect_all_kept ps w : kept (mon w) (mon (snd (collect_all ps w))).
Proof.
  revert w. induction ps as [| q rest IH]; intros w; simpl.
  - apply kept_refl.
  - destruct (collect_metrics q w) as [[[[m |] | e] w1] |] eqn:E;
      try (apply collect_metrics_kept in E).
    + specialize (IH w1). destruct (collect_all rest w1) as [ms w2].
      simpl in *. eapply kept_trans; eauto.
    + eapply kept_trans; eauto.
    + exact E.
    + apply kept_refl.
Qed.

(** Sampling never changes what was set at construction: after any
    sequence of calls of [collect_metrics] the monitor has a process
    handle, the default thresholds and its capacity; and it never records
    an audio latency, an xrun or a frame drop: that history is empty and
    the two counters are 0. *)
Theorem sampling_keeps_configuration
  (p : option Z) (size : nat) (handle : Z) (ps : list Probe) :
  let w := snd (collect_all ps (started p size handle)) in
  process (mon w) <> None /\
  thresholds (mon w) = default_thresholds /\
  history_size (mon w) = size /\
  to_list (audio_latency_history (mon w)) = [] /\
  xrun_count (mon w) = 0%Z /\
  frame_drops (mon w) = 0%Z.
Proof.
  destruct (collect_all_kept ps (started p size handle)) as (Hp & Hu & Ht).
  simpl. unfold untracked in Hu. simpl in Hu. injection Hu as H1 H2 H3 H4.
  rewrite H2. repeat split; auto.
  apply Hp. simpl. discriminate.
Qed.

(** ** A handle that is no longer running *)

(** When the handle is reported dead and the monitor has a pid other
    than 0, [collect_metrics] never returns.  If the pid cannot be opened
    again it prints the error and leaves through [sys.exit(1)] with the
    monitor as it was.  If it can, the new handle is stored and the
    recogniser, called on it, raises [AttributeError] ahead of the [try]
    block; nothing is sampled and nothing is printed. *)
Theorem collect_metrics_on_dead_handle (q : Probe) (w : World) (h p : Z) :
  process (mon w) = Some h ->
  is_running q = false ->
  truthy_pid (pid (mon w)) = Some p ->
  collect_metrics q w
  = if pid_exists (finder q)
    then Some (Raise AttributeError,
               mkWorld (set_process (Some p) (mon w)) (out w))
    else Some (Raise (SystemExit 1),
               mkWorld (mon w) (out w ++ [Printed (ErrNoProcessWithPid p)])).
Proof.
  intros Hproc Hrun Hpid.
  unfold collect_metrics. unfold bind at 1, get_self at 1.
  rewrite Hproc, Hrun. cbn [negb]. unfold bind at 1.
  unfold _find_process, bind at 1, get_self at 1. rewrite Hpid.
  destruct (pid_exists (finder q)); reflexivity.
Qed.

Lemma collect_metrics_on_dead_handle_witness :
  collect_metrics (dead_probe false) (started (Some 7%Z) 100 7)
  = Some (Raise (SystemExit 1),
          mkWorld (mon (started (Some 7%Z) 100 7))
            [Printed (ErrNoProcessWithPid 7)]).
Proof.
  exact (collect_metrics_on_dead_handle (dead_probe false)
           (started (Some 7%Z) 100 7) 7 7 eq_refl eq_refl eq_refl).
Defined.

(** The same handle, with a pid that can be opened again. *)
Example reopened_handle_raises :
  collect_metrics (dead_probe true) (started (Some 7%Z) 100 7)
  = Some (Raise AttributeError, started (Some 7%Z) 100 7).
Proof. reflexivity. Qed.

(** ** The summary at the end of a run *)

(** With samples in the cpu and memory histories, the [finally] clause of
    [main] completes: after the snapshot it prints the summary, whose
    averages, peaks and violation counts are the numbers stored in the
    snapshot. *)
Theorem finalize_prints_the_saved_numbers
  (args : Args) (c : Closing) (w : World) (name : string) :
  name_read c (mon w) = Got name ->
  open_ok c = true ->
  to_list (cpu_history (mon w)) <> [] ->
  to_list (memory_history (mon w)) <> [] ->
  let d := snapshot_of name (mon w) in
  finalize args c w
  = Some (Ok tt,
          mkWorld (mon w)
            (out w
               ++ [Dumped (arg_output args) d;
                   Printed (SavedTo (arg_output args));
                   Printed SummaryHeader;
                   Printed (CpuAverage (average (metrics_cpu d)));
                   Printed (CpuPeak (peak (metrics_cpu d)));
                   Printed (MemoryAverage (average (metrics_memory d)));
                   Printed (MemoryPeak (peak (metrics_memory d)));
                   Printed ViolationsHeader;
                   Printed (CpuTimes (th_cpu_percent (snap_thresholds d))
                              (cpu_exceeded (snap_violations d)));
                   Printed (MemoryTimes (th_memory_mb (snap_thresholds d))
                              (memory_exceeded (snap_violations d)));
                   Printed (ThreadsTimes (th_thread_count (snap_thresholds d))
                              (thread_exceeded (snap_violations d)))])).
Proof.
  intros Hname Hopen Hcpu Hmem. cbv zeta.
  unfold finalize. unfold bind at 1. rewrite save_metrics_run, Hname, Hopen.
  unfold snapshot_of, average_value, peak_value, mean.
  unfold _get_threshold_violations.
  unfold bind, get_self, ret, print, emit, lift, truediv, Py.max, dlen,
    to_list in *.
  cbn [mon out].
  destruct (items (cpu_history (mon w))) as [| x xs]; [congruence |].
  destruct (items (memory_history (mon w))) as [| y ys]; [congruence |].
  rewrite !len_cons_nonzero. cbn [mon out].
  repeat rewrite <- app_assoc. reflexivity.
Qed.

Lemma finalize_prints_the_saved_numbers_witness :
  exists events,
    finalize default_args closing_ok two_samples
    = Some (Ok tt, mkWorld (mon two_samples) (out two_samples ++ events)) /\
    length events = 11%nat.
Proof.
  eexists. split.
  - apply (finalize_prints_the_saved_numbers default_args closing_ok
             two_samples "rusty-audio").
    + reflexivity.
    + reflexivity.
    + vm_compute. discriminate.
    + vm_compute. discriminate.
  - reflexivity.
Defined.

(** With an empty cpu history, the [finally] clause writes the snapshot,
    prints the header of the summary and raises [ZeroDivisionError]. *)
Theorem finalize_raises_on_empty_history
  (args : Args) (c : Closing) (w : World) (name : string) :
  name_read c (mon w) = Got name ->
  open_ok c = true ->
  to_list (cpu_history (mon w)) = [] ->
  finalize args c w
  = Some (Raise ZeroDivisionError,
          mkWorld (mon w)
            (out w
               ++ [Dumped (arg_output args) (snapshot_of name (mon w));
                   Printed (SavedTo (arg_output args));
                   Printed SummaryHeader])).
Proof.
  intros Hname Hopen Hcpu.
  unfold finalize. unfold bind at 1. rewrite save_metrics_run, Hname, Hopen.
  unfold _get_threshold_violations.
  unfold bind, get_self, ret, print, emit, lift, truediv, dlen, to_list in *.
  cbn [mon out]. rewrite Hcpu. cbn [len length Z.of_nat Z.eqb].
  repeat rewrite <- app_assoc. reflexivity.
Qed.

Lemma finalize_raises_on_empty_history_witness :
  finalize default_args closing_ok (started (Some 7%Z) 100 7)
  = Some (Raise ZeroDivisionError,
          mkWorld (mon (started (Some 7%Z) 100 7))
            (out (started (Some 7%Z) 100 7)
               ++ [Dumped (arg_output default_args)
                     (snapshot_of "rusty-audio" (mon (started (Some 7%Z) 100 7)));
                   Printed (SavedTo (arg_output default_args));
                   Printed SummaryHeader])).
Proof.
  exact (finalize_raises_on_empty_history default_args closing_ok
           (started (Some 7%Z) 100 7) "rusty-audio" eq_refl eq_refl eq_refl).
Defined.

(** ** Continuous monitoring *)

(** Without a positive [--duration] the loop of [main] has no [break]:
    it is left only by an exception. *)
Lemma monitor_loop_continuous args start_time script w r w' :
  (arg_duration args <= 0)%Z ->
  monitor_loop args start_time script w = Some (r, w') ->
  exists e, r = Raise e.
Proof.
  intros Hd. replace (Z.ltb 0 (arg_duration args)) with false
    by (symmetry; apply Z.ltb_ge; exact Hd).
  revert w. induction script as [| t rest IH]; intros w; simpl.
  - discriminate.
  - unfold bind.
    destruct (collect_metrics (probe t) w) as [[[m | e] w1] |];
      [| intros E; injection E as <- _; eauto | discriminate].
    destruct (print_metrics m w1) as [[[[] | e] w2] |];
      [| intros E; injection E as <- _; eauto | discriminate].
    replace (Z.ltb 0 (arg_duration args)) with false
      by (symmetry; apply Z.ltb_ge; exact Hd).
    cbn [andb].
    destruct (sleep (arg_interval args) (sleep_interrupted t) w2)
      as [[[[] | e] w3] |];
      [| intros E; injection E as <- _; eauto | discriminate].
    apply IH.
Qed.

Lemma extends_save_metrics f c : extends (save_metrics f c).
Proof.
  intros w r w'. rewrite save_metrics_run.
  destruct (name_read c (mon w)); [destruct (open_ok c) | |];
    intros E; injection E as _ <-; simpl; eauto;
    exists []; rewrite app_nil_r; reflexivity.
Qed.

Lemma extends_finalize args c : extends (finalize args c).
Proof.
  unfold finalize.
  apply extends_bind; [apply extends_save_metrics | intros _].
  unfold _get_threshold_violations. trace_grows.
Qed.

(** A run without a positive [--duration], in console mode, ends
    normally only when it was interrupted from the keyboard: its trace
    then holds the line "Monitoring stopped by user".  Every other end of
    such a run is an exception. *)
Theorem continuous_run_ends_by_interrupt (args : Args) (env : Env) (w' : World) :
  arg_benchmark args = false ->
  arg_plot args && has_matplotlib env = false ->
  (arg_duration args <= 0)%Z ->
  main args env = Some (Ok tt, w') ->
  In (Printed StoppedByUser) (out w').
Proof.
  intros Hbench Hplot Hd.
  unfold main, main_body. rewrite Hbench. unfold bind.
  destruct (__init__ _ _ _ _) as [[[[] | e] w1] |]; try discriminate.
  rewrite Hplot. unfold console_run, try_finally, try_except_KeyboardInterrupt.
  destruct (monitor_loop args (start_clock env) (ticks env) w1)
    as [[r0 w2] |] eqn:El; [| discriminate].
  destruct (monitor_loop_continuous _ _ _ _ _ _ Hd El) as [e ->].
  destruct e;
    try (destruct (finalize args (closing env) w2) as [[[[] | e'] w3] |];
         discriminate).
  destruct (print StoppedByUser w2) as [[r1 w3] |] eqn:Ep; [| discriminate].
  unfold print, emit in Ep. injection Ep as <- <-.
  destruct (finalize args (closing env) _) as [[[[] | e'] w4] |] eqn:Ef;
    try discriminate.
  intros E. injection E as <-.
  destruct (extends_finalize _ _ _ _ _ Ef) as [post Hpost].
  rewrite Hpost. cbn [out]. apply in_or_app. left.
  apply in_or_app. right. left. reflexivity.
Qed.

Lemma continuous_run_ends_by_interrupt_witness :
  In (Printed StoppedByUser) (trace (main default_args env_interrupted)).
Proof.
  destruct (main default_args env_interrupted) as [[[[] | e] w'] |] eqn:E;
    try (vm_compute in E; discriminate).
  simpl trace.
  apply (continuous_run_ends_by_interrupt default_args env_interrupted w');
    [reflexivity | reflexivity | discriminate | exact E].
Defined.

(** ** Relations between the numbers of a snapshot *)

(** When the name can be read and the file written, [save_metrics]
    writes [snapshot_of] and the notice. *)
Lemma save_metrics_writes f c w name :
  name_read c (mon w) = Got name ->
  open_ok c = true ->
  save_metrics f c w
  = Some (Ok tt,
          mkWorld (mon w)
            (out w ++ [Dumped f (snapshot_of name (mon w)); Printed (SavedTo f)])).
Proof. intros Hn Ho. rewrite save_metrics_run, Hn, Ho. reflexivity. Qed.

Lemma filter_nil_iff {A} (p : A -> bool) xs :
  filter p xs = [] <-> Forall (fun x => p x = false) xs.
Proof.
  induction xs as [| x xs IH]; simpl.
  - split; auto.
  - destruct (p x) eqn:E; split; intros H.
    + discriminate.
    + inversion H; subst. congruence.
    + constructor; [exact E | apply IH; exact H].
    + inversion H; subst. apply IH. assumption.
Qed.

Lemma len_zero_iff {A} (xs : list A) : len xs = 0%Z <-> xs = [].
Proof.
  unfold len. destruct xs; simpl; split; intros H;
    [reflexivity | reflexivity | lia | discriminate].
Qed.

(** In the snapshot of a monitor with a non-empty cpu history, the stored
    count of cpu violations is 0 exactly when the stored peak does not
    exceed the cpu threshold. *)
Theorem saved_peak_decides_violations
  (f : string) (c : Closing) (w : World) (name : string) :
  name_read c (mon w) = Got name ->
  open_ok c = true ->
  to_list (cpu_history (mon w)) <> [] ->
  exists d,
    save_metrics f c w
    = Some (Ok tt, mkWorld (mon w) (out w ++ [Dumped f d; Printed (SavedTo f)])) /\
    (cpu_exceeded (snap_violations d) = 0%Z
     <-> peak (metrics_cpu d) <= th_cpu_percent (snap_thresholds d)).
Proof.
  intros Hname Hopen Hne.
  exists (snapshot_of name (mon w)).
  split; [apply save_metrics_writes; assumption |].
  unfold snapshot_of. cbn [metrics_cpu snap_violations snap_thresholds
                            peak cpu_exceeded].
  destruct (to_list (cpu_history (mon w))) as [| x xs]; [congruence |].
  cbn [peak_value].
  pose proof (max_from_upper x xs) as Hup.
  pose proof (max_from_in Qgtb x xs) as Hin.
  rewrite count_if_filter, len_zero_iff, filter_nil_iff.
  set (M := max_from Qgtb x xs) in *.
  set (th := th_cpu_percent (thresholds (mon w))).
  split.
  - intros Hall. rewrite Forall_forall in Hall. specialize (Hall M Hin).
    unfold Qgtb in Hall. apply negb_false_iff in Hall.
    apply Qle_bool_iff. exact Hall.
  - intros Hle. rewrite Forall_forall in Hup |- *. intros y Hy.
    unfold Qgtb. apply negb_false_iff. apply Qle_bool_iff.
    eapply Qle_trans; [apply Hup; exact Hy | exact Hle].
Qed.

Lemma saved_peak_decides_violations_witness :
  exists d,
    save_metrics "m.json" closing_ok two_samples
    = Some (Ok tt,
            mkWorld (mon two_samples)
              (out two_samples
                 ++ [Dumped "m.json" d; Printed (SavedTo "m.json")])) /\
    (cpu_exceeded (snap_violations d) = 0%Z
     <-> peak (metrics_cpu d) <= th_cpu_percent (snap_thresholds d)).
Proof.
  apply (saved_peak_decides_violations "m.json" closing_ok
           two_samples "rusty-audio").
  - reflexivity.
  - reflexivity.
  - vm_compute. discriminate.
Defined.





(** ** What is written, and how often *)

Section AddsNone.
Variable sel : Event -> bool.

Lemma adds_none_same {A} (c : M A) :
  (forall w r w', c w = Some (r, w') -> out w' = out w) -> adds_none sel c.
Proof.
  intros H w r w' E. exists []. rewrite app_nil_r. split; [eauto | reflexivity].
Qed.

Lemma adds_none_ret {A} (a : A) : adds_none sel (ret a).
Proof. apply adds_none_same. intros w r w' E. injection E as _ <-. reflexivity. Qed.

Lemma adds_none_lift {A} (x : Res A) : adds_none sel (lift x).
Proof. apply adds_none_same. intros w r w' E. injection E as _ <-. reflexivity. Qed.

Lemma adds_none_raise {A} (e : Exc) : adds_none sel (@raise A e).
Proof. apply adds_none_same. intros w r w' E. injection E as _ <-. reflexivity. Qed.

Lemma adds_none_get_self : adds_none sel get_self.
Proof. apply adds_none_same. intros w r w' E. injection E as _ <-. reflexivity. Qed.

Lemma adds_none_set_self f : adds_none sel (set_self f).
Proof. apply adds_none_same. intros w r w' E. injection E as _ <-. reflexivity. Qed.

Lemma adds_none_read {A} (x : Read A) : adds_none sel (read x).
Proof. destruct x; [apply adds_none_ret | apply adds_none_raise ..]. Qed.

Lemma adds_none_still_running {A} : adds_none sel (@still_running A).
Proof. intros w r w' E. discriminate. Qed.

Lemma adds_none_emit e : sel e = false -> adds_none sel (emit e).
Proof.
  intros H w r w' E. injection E as _ <-. exists [e]. simpl.
  rewrite H. auto.
Qed.

Lemma adds_none_bind {A B} (c : M A) (k : A -> M B) :
  adds_none sel c -> (forall a, adds_none sel (k a)) -> adds_none sel (bind c k).
Proof.
  intros Hc Hk w r w' E. unfold bind in E.
  destruct (c w) as [[[a | e] w1] |] eqn:Ec; [| | discriminate].
  - destruct (Hc _ _ _ Ec) as (p1 & E1 & F1).
    destruct (Hk a _ _ _ E) as (p2 & E2 & F2).
    exists (p1 ++ p2). rewrite E2, E1, app_assoc, filter_app, F1, F2.
    auto.
  - injection E as _ <-. exact (Hc _ _ _ Ec).
Qed.

Lemma adds_none_for_each {A} (xs : list A) (body : A -> M unit) :
  (forall x, adds_none sel (body x)) -> adds_none sel (for_each xs body).
Proof.
  intros H. induction xs as [| x xs IH]; simpl.
  - apply adds_none_ret.
  - apply adds_none_bind; [apply H | intros _; exact IH].
Qed.

Lemma adds_none_try_except_psutil {A} (body : M A) handler :
  adds_none sel body -> (forall e, adds_none sel (handler e)) ->
  adds_none sel (try_except_psutil body handler).
Proof.
  intros Hb Hh w r w' E. unfold try_except_psutil in E.
  destruct (body w) as [[r1 w1] |] eqn:Eb; [| discriminate].
  destruct (Hb _ _ _ Eb) as (p1 & E1 & F1).
  assert (Hsame : Some (r1, w1) = Some (r, w') ->
                  exists post, out w' = out w ++ post /\ filter sel post = [])
    by (intros E'; injection E' as _ <-; eauto).
  destruct r1 as [a | []]; auto.
  destruct (Hh _ _ _ _ E) as (p2 & E2 & F2).
  exists (p1 ++ p2). rewrite E2, E1, app_assoc, filter_app, F1, F2. auto.
Qed.


(** What such a computation leaves of the selected events. *)
Lemma adds_none_filter {A} (c : M A) w r w' :
  adds_none sel c -> c w = Some (r, w') ->
  filter sel (out w') = filter sel (out w).
Proof.
  intros H E. destruct (H _ _ _ E) as (post & -> & F).
  rewrite filter_app, F, app_nil_r. reflexivity.
Qed.

End AddsNone.

Lemma adds_none_print_dump l : adds_none is_dump (print l).
Proof. apply adds_none_emit. reflexivity. Qed.

Ltac no_dump :=
  repeat first
    [ apply adds_none_ret | apply adds_none_lift | apply adds_none_raise
    | apply adds_none_get_self | apply adds_none_set_self
    | apply adds_none_read | apply adds_none_print_dump
    | apply adds_none_still_running
    | apply adds_none_emit; reflexivity
    | apply adds_none_for_each; intros ?
    | apply adds_none_try_except_psutil; [| intros ?]
    | apply adds_none_bind; [| intros ?]
    | match goal with
      | |- adds_none _ (match ?x with _ => _ end) => destruct x
      end ].

Lemma adds_none_call_is_rusty sel h : adds_none sel (call_is_rusty h).
Proof.
  apply adds_none_same. intros w r w' E.
  destruct (call_is_rusty_run h w) as [r0 E0]. rewrite E0 in E.
  injection E as _ <-. reflexivity.
Qed.

Lemma scan_processes_cons proc rest :
  scan_processes (proc :: rest)
  = (rusty <- call_is_rusty (Iterated proc) ;;
     if rusty then
       set_self (set_process (Some (proc_pid proc))) ;;;
       set_self (set_pid (Some (proc_pid proc))) ;;;
       print (FoundProcess (proc_pid proc))
     else scan_processes rest).
Proof. reflexivity. Qed.

Lemma scan_processes_adds_none sel procs :
  (forall p, sel (Printed (FoundProcess p)) = false) ->
  adds_none sel (scan_processes procs).
Proof.
  intros Hsel. induction procs as [| proc rest IH].
  - apply adds_none_ret.
  - rewrite scan_processes_cons.
    apply adds_none_bind; [apply adds_none_call_is_rusty | intros rusty].
    destruct rusty; [| exact IH].
    repeat first [ apply adds_none_bind; [| intros ?]
                 | apply adds_none_set_self
                 | apply adds_none_emit; apply Hsel ].
Qed.

Lemma find_process_adds_none sel f :
  (forall l, sel (Printed l) = false \/ exists o t, l = HighCpu o t) ->
  adds_none sel (_find_process f).
Proof.
  intros Hsel.
  assert (Hp : forall l, (forall o t, l <> HighCpu o t) ->
                         adds_none sel (print l)).
  { intros l Hl. apply adds_none_emit.
    destruct (Hsel l) as [H | (o & t & H)]; [exact H | destruct (Hl _ _ H)]. }
  unfold _find_process.
  apply adds_none_bind; [apply adds_none_get_self | intros self].
  destruct (truthy_pid (pid self)).
  - destruct (pid_exists f).
    + apply adds_none_bind; [apply adds_none_set_self | intros _].
      apply adds_none_bind; [apply adds_none_call_is_rusty | intros rusty].
      destruct (negb rusty); [apply Hp; discriminate | apply adds_none_ret].
    + apply adds_none_bind; [apply Hp; discriminate | intros _].
      apply adds_none_raise.
  - apply adds_none_bind.
    + apply scan_processes_adds_none. intros p.
      destruct (Hsel (FoundProcess p)) as [H | (o & t & H)];
        [exact H | discriminate].
    + intros _. apply adds_none_bind; [apply adds_none_get_self | intros m].
      destruct (process m); [apply adds_none_ret |].
      apply adds_none_bind; [apply Hp; discriminate | intros _].
      apply adds_none_bind; [apply Hp; discriminate | intros _].
      apply adds_none_raise.
Qed.

Lemma find_process_no_dump f : adds_none is_dump (_find_process f).
Proof. apply find_process_adds_none. intros l. left. reflexivity. Qed.

Lemma init_no_dump p size f : adds_none is_dump (__init__ p size f).
Proof.
  unfold __init__.
  apply adds_none_bind; [apply adds_none_set_self | intros _].
  apply find_process_no_dump.
Qed.

Lemma collect_metrics_no_dump q : adds_none is_dump (collect_metrics q).
Proof.
  unfold collect_metrics.
  apply adds_none_bind; [apply adds_none_get_self | intros self].
  apply adds_none_bind.
  - destruct (process self); [destruct (negb (is_running q)) |];
      first [apply find_process_no_dump | apply adds_none_ret].
  - intros _. unfold _check_thresholds. no_dump.
Qed.

Lemma print_metrics_no_dump x : adds_none is_dump (print_metrics x).
Proof. unfold print_metrics. no_dump. Qed.

Lemma sleep_no_dump s i : adds_none is_dump (sleep s i).
Proof. unfold sleep. no_dump. Qed.


Lemma bench_loop_no_dump script : adds_none is_dump (bench_loop script).
Proof.
  induction script as [| t rest IH]; simpl.
  - apply adds_none_ret.
  - apply adds_none_bind; [apply collect_metrics_no_dump | intros m].
    apply adds_none_bind; [apply print_metrics_no_dump | intros _].
    apply adds_none_bind; [apply sleep_no_dump | intros _; exact IH].
Qed.

Lemma animate_no_dump q : adds_none is_dump (animate q).
Proof.
  unfold animate.
  apply adds_none_bind; [apply collect_metrics_no_dump | intros m].
  no_dump.
Qed.

Lemma plot_realtime_no_dump b fs : adds_none is_dump (plot_realtime b fs).
Proof.
  unfold plot_realtime. destruct (negb b); [apply adds_none_print_dump |].
  apply adds_none_for_each. intros q. apply animate_no_dump.
Qed.




(** With the live chart, no run writes a snapshot, however it ends. *)
Theorem live_chart_never_saves (args : Args) (env : Env) :
  arg_benchmark args = false ->
  arg_plot args && has_matplotlib env = true ->
  dumps (trace (main args env)) = [].
Proof.
  intros Hbench Hplot. unfold main, main_body. rewrite Hbench.
  assert (Hq : adds_none is_dump
                 (__init__ (arg_pid args) 100 (startup env) ;;;
                  (if arg_plot args && has_matplotlib env
                   then plot_realtime (has_matplotlib env) (frames env)
                   else console_run args env))).
  { apply adds_none_bind; [apply init_no_dump | intros _].
    rewrite Hplot. apply plot_realtime_no_dump. }
  match goal with
  | |- dumps (trace (?c ?w0)) = [] => destruct (c w0) as [[r w'] |] eqn:E
  end; [| reflexivity].
  apply (adds_none_filter _ _ _ _ _ Hq) in E. exact E.
Qed.

Lemma live_chart_never_saves_witness :
  dumps (trace (main args_plot env_two_frames)) = [].
Proof.
  apply (live_chart_never_saves args_plot env_two_frames); reflexivity.
Defined.


(** With [--benchmark] the monitor is constructed on the pid of the
    benchmark, a pid other than 0, and the constructor never returns: the
    program samples nothing and writes no snapshot.  It ends with
    [AttributeError], which the recogniser raises on the handle of
    [psutil.Process(pid)], or through [sys.exit(1)] when the benchmark is
    already gone. *)
Theorem benchmark_never_monitors (args : Args) (env : Env) :
  arg_benchmark args = true ->
  bench_pid env <> 0%Z ->
  main args env
  = if pid_exists (startup env)
    then Some (Raise AttributeError,
               mkWorld (set_process (Some (bench_pid env))
                          (fresh (Some (bench_pid env)) 100))
                 [Printed BenchStarting])
    else Some (Raise (SystemExit 1),
               mkWorld (fresh (Some (bench_pid env)) 100)
                 [Printed BenchStarting;
                  Printed (ErrNoProcessWithPid (bench_pid env))]).
Proof.
  intros Hbench Hpid. unfold main, main_body. rewrite Hbench.
  unfold run_benchmark_and_monitor, __init__, _find_process.
  unfold bind, print, emit, set_self, get_self. cbn [mon out pid fresh app].
  unfold truthy_pid. rewrite (proj2 (Z.eqb_neq _ _) Hpid).
  destruct (pid_exists (startup env)); reflexivity.
Qed.

Lemma benchmark_never_monitors_witness :
  main args_benchmark env_interrupted
  = Some (Raise AttributeError,
          mkWorld (set_process (Some 99%Z) (fresh (Some 99%Z) 100))
            [Printed BenchStarting]).
Proof.
  refine (benchmark_never_monitors args_benchmark env_interrupted eq_refl _).
  discriminate.
Defined.

(** ** Warnings and counted violations *)

Lemma find_process_no_high f : adds_none is_high_cpu (_find_process f).
Proof.
  apply find_process_adds_none. intros l.
  destruct l; try (left; reflexivity). right. eauto.
Qed.


(** One call of [collect_metrics]: the sample it returns is built from
    the answers of the tick, and the only high-cpu warning it prints is
    the one for that sample. *)
Lemma collect_metrics_tick q w r w' :
  collect_metrics q w = Some (r, w') ->
  exists pre,
    filter is_high_cpu pre = [] /\
    match r with
    | Ok (Some m) =>
        (exists cpu rss pct,
           reads q = Some (cpu, rss, pct) /\ m = sample_of q cpu rss pct) /\
        out w' = out w ++ pre
                   ++ map Printed (threshold_warnings (thresholds (mon w)) m)
    | _ => out w' = out w ++ pre
    end.
Proof.
  unfold collect_metrics.
  set (prelude := match process (mon w) with
                  | None => _find_process (finder q)
                  | Some _ => if negb (is_running q)
                              then _find_process (finder q) else ret tt
                  end).
  assert (Hpre : forall r1 w1, prelude w = Some (r1, w1) ->
                   thresholds (mon w1) = thresholds (mon w) /\
                   exists pre, out w1 = out w ++ pre /\
                               filter is_high_cpu pre = []).
  { subst prelude. intros r1 w1 E. split.
    - assert (K : kept (mon w) (mon w1)).
      { destruct (process (mon w)); [destruct (negb (is_running q)) |];
          first [ eapply find_process_kept; exact E
                | injection E as _ <-; apply kept_refl ]. }
      apply K.
    - destruct (process (mon w)); [destruct (negb (is_running q)) |];
        first [ exact (find_process_no_high _ _ _ _ E)
              | exact (adds_none_ret is_high_cpu tt _ _ _ E) ]. }
  unfold bind at 1. unfold get_self at 1. fold prelude.
  unfold bind at 1.
  destruct (prelude w) as [[[[] | e] w1] |] eqn:E1; [| | discriminate].
  2:{ intros E. injection E as <- <-.
      destruct (Hpre _ _ eq_refl) as (_ & pre & Ho & Hf). eauto. }
  destruct (Hpre _ _ eq_refl) as (Hth & pre & Ho & Hf).
  unfold try_except_psutil, bind, get_self, reads.
  destruct (process (mon w1)) eqn:Hp.
  2:{ simpl. intros E. injection E as <- <-. eauto. }
  destruct (read_cpu_percent q) as [cpu | e | ]; simpl;
    try (intros E; injection E as <- <-; cbn [out];
         first [ exists pre; split; [exact Hf | exact Ho]
               | exists (pre ++ [Printed (ErrCollecting e)]);
                 rewrite filter_app, Hf, Ho, app_assoc; split; reflexivity ]).
  destruct (read_rss q) as [rss | e | ]; simpl;
    try (intros E; injection E as <- <-; cbn [out];
         first [ exists pre; split; [exact Hf | exact Ho]
               | exists (pre ++ [Printed (ErrCollecting e)]);
                 rewrite filter_app, Hf, Ho, app_assoc; split; reflexivity ]).
  unfold sample_of.
  destruct (io_counters q) as [[rd wr] |];
  (destruct (read_memory_percent q) as [pct | e | ]; simpl;
    try (intros E; injection E as <- <-; cbn [out];
         first [ exists pre; split; [exact Hf | exact Ho]
               | exists (pre ++ [Printed (ErrCollecting e)]);
                 rewrite filter_app, Hf, Ho, app_assoc; split; reflexivity ]));
  unfold _check_thresholds, bind, get_self; rewrite for_each_print; simpl;
  intros E; injection E as <- <-; cbn [out];
  (exists pre; split; [exact Hf |]; split;
   [ do 3 eexists; split; reflexivity
   | rewrite Ho, Hth, app_assoc; reflexivity ]).
Qed.




(** ** Handles off Windows *)

Lemma collect_all_samples ps w :
  Forall (fun m => exists q cpu rss pct,
                     In q ps /\ m = sample_of q cpu rss pct)
    (fst (collect_all ps w)).
Proof.
  revert w. induction ps as [| q rest IH]; intros w; simpl.
  - constructor.
  - destruct (collect_metrics q w) as [[[[m |] | e] w1] |] eqn:E.
    + destruct (collect_metrics_tick _ _ _ _ E)
        as (pre & _ & (cpu & rss & pct & _ & Hm) & _).
      specialize (IH w1). destruct (collect_all rest w1) as [ms w2].
      cbn [fst] in *. constructor.
      * exists q, cpu, rss, pct. auto.
      * eapply Forall_impl; [| exact IH].
        intros a (q' & c' & r' & p' & Hin & Ha). exists q', c', r', p'. auto.
    + eapply Forall_impl; [| apply IH].
      intros a (q' & c' & r' & p' & Hin & Ha). exists q', c', r', p'. auto.
    + constructor.
    + constructor.
Qed.

(** [num_handles] is read on Windows only: when no tick of a run is on
    Windows, every handle count in the history is 0. *)
Theorem handle_counts_are_zero_off_windows
  (p : option Z) (size : nat) (handle : Z) (ps : list Probe) :
  Forall (fun q => win32 q = false) ps ->
  Forall (fun h => h = 0%Z)
    (to_list (handle_count_history
                (mon (snd (collect_all ps (started p size handle)))))).
Proof.
  intros Hwin.
  pose proof (collect_all_pushes ps (started p size handle)) as Hh.
  pose proof (collect_all_samples ps (started p size handle)) as Hs.
  destruct (collect_all ps (started p size handle)) as [ms w].
  destruct Hh as (_ & _ & _ & Hh & _). cbn [fst snd] in *.
  unfold to_list. rewrite Hh. simpl.
  destruct (fold_append (deque_new size) (map handle_count ms)) as [-> _];
    [simpl; lia |].
  simpl. unfold last_n. apply Forall_forall. intros h Hin.
  assert (Hin' : In h (map handle_count ms)).
  { rewrite <- (firstn_skipn (length (map handle_count ms) - size)).
    apply in_or_app. right. exact Hin. }
  apply in_map_iff in Hin'. destruct Hin' as (m & <- & Hm).
  rewrite Forall_forall in Hs, Hwin.
  destruct (Hs m Hm) as (q & cpu & rss & pct & Hq & ->).
  unfold sample_of. cbn [handle_count]. rewrite (Hwin q Hq). reflexivity.
Qed.

Lemma handle_counts_are_zero_witness :
  Forall (fun h => h = 0%Z)
    (to_list (handle_count_history (mon two_samples))).
Proof.
  apply (handle_counts_are_zero_off_windows (Some 7%Z) 100 7
           [probe_with_cpu 10; probe_with_cpu 30]).
  repeat constructor.
Defined.
